(** * Equation to LaTeX: the App component and the Gemini service

    A shallow embedding of [App.tsx] (the React component that owns the
    selected image, the result text and the error message) and of
    [services/geminiService.ts] ([getLatexFromImage]), with the properties
    of their request/response life cycle.

    The component's [useState] cells are the fields of [AppState]; the
    browser objects it talks to (object URLs, the [FileReader], the remote
    model, the console and the sink of unhandled promise rejections) are
    the remaining fields of [World].  Every handler of the source is a
    function on [World]; what the browser or the remote service decides
    (the outcome of a read, the answer of the model) is carried by the
    event that resumes the handler. *)

From Stdlib Require Import List NArith String Ascii Bool Arith Lia.
Import ListNotations.

Set Implicit Arguments.

(* ================================================================== *)
(** ** JavaScript strings and the built-ins the source calls *)
(* ================================================================== *)

Module JS.

(** A JavaScript string is a sequence of UTF-16 code units. *)
Definition code_unit := N.
Definition jsstring := list code_unit.

(** String literals of the source (all of them are ASCII). *)
Definition lit (s : string) : jsstring :=
  map N_of_ascii (list_ascii_of_string s).

(** [a === b] on strings. *)
Fixpoint str_eqb (a b : jsstring) : bool :=
  match a, b with
  | [], [] => true
  | x :: a', y :: b' => N.eqb x y && str_eqb a' b'
  | _, _ => false
  end.

(** Truthiness of a string: only the empty string is falsy. *)
Definition truthy (s : jsstring) : bool :=
  match s with [] => false | _ :: _ => true end.

(** ECMAScript [WhiteSpace] and [LineTerminator] code points, the set
    that [String.prototype.trim] strips. *)
Definition isWhiteSpace (c : code_unit) : bool :=
  ((9 <=? c) && (c <=? 13)            (* TAB, LF, VT, FF, CR *)
   || (c =? 32)                       (* SPACE *)
   || (c =? 160)                      (* NO-BREAK SPACE *)
   || (c =? 5760)                     (* U+1680 *)
   || ((8192 <=? c) && (c <=? 8202))  (* U+2000 .. U+200A *)
   || (c =? 8232) || (c =? 8233)      (* U+2028, U+2029 *)
   || (c =? 8239)                     (* U+202F *)
   || (c =? 8287)                     (* U+205F *)
   || (c =? 12288)                    (* U+3000 *)
   || (c =? 65279))%N.                (* U+FEFF *)

Fixpoint trimStart (s : jsstring) : jsstring :=
  match s with
  | [] => []
  | c :: s' => if isWhiteSpace c then trimStart s' else s
  end.

Definition trimEnd (s : jsstring) : jsstring :=
  rev (trimStart (rev s)).

(** [s.trim()] *)
Definition trim (s : jsstring) : jsstring :=
  trimEnd (trimStart s).

(** [s.startsWith(p)] *)
Fixpoint startsWith (s p : jsstring) : bool :=
  match p, s with
  | [], _ => true
  | _ :: _, [] => false
  | x :: p', y :: s' => N.eqb x y && startsWith s' p'
  end.

(** [s.includes(sub)] *)
Fixpoint includes (s sub : jsstring) : bool :=
  startsWith s sub
  || match s with
     | [] => false
     | _ :: s' => includes s' sub
     end.

(** [s.split(sep)] for a one-unit separator. *)
Fixpoint split_from (sep : code_unit) (acc s : jsstring) : list jsstring :=
  match s with
  | [] => [rev acc]
  | c :: s' =>
      if N.eqb c sep then rev acc :: split_from sep [] s'
      else split_from sep (c :: acc) s'
  end.

Definition split (sep : code_unit) (s : jsstring) : list jsstring :=
  split_from sep [] s.

Definition comma : code_unit := 44%N.

End JS.

Import JS.

(* ================================================================== *)
(** ** Data model *)
(* ================================================================== *)

(** The part of a DOM [File] the component looks at. *)
Module File.
Record t := mk { name : jsstring; type : jsstring; size : N }.
End File.

(** An object URL handed out by [URL.createObjectURL]: an opaque handle. *)
Definition ObjectURL := nat.

(** [interface ImageFile { file: File; preview: string }] *)
Record ImageFile := mkImageFile { file : File.t; preview : ObjectURL }.

(** The five [useState] cells of [App]. *)
Record AppState := mkApp {
  imageFile : option ImageFile;
  latexCode : jsstring;
  isLoading : bool;
  error : jsstring;
  isDragging : bool
}.

(** The argument of [ai.models.generateContent]. *)
Record InlineData := mkInline {
  data : option jsstring;   (* [undefined] when the data URL had no comma *)
  mimeType : jsstring
}.

Record ConversionRequest := mkRequest {
  model : jsstring;
  imagePart : InlineData;
  textPart : jsstring
}.

(** A thrown JavaScript value: an [Error] with its message, or anything
    else. *)
Inductive Thrown :=
| ErrorObj (message : jsstring)
| NonError.

(** How the awaited [generateContent] promise settles: fulfilled with a
    response whose [text] may be [undefined], or rejected. *)
Inductive RemoteOutcome :=
| Resolved (text : option jsstring)
| Rejected (e : Thrown).

(** Normal or abrupt completion of a block. *)
Inductive Completion (A : Type) :=
| Return (a : A)
| Throw (e : Thrown).
Arguments Return {A} a.
Arguments Throw {A} e.

(** An asynchronous continuation the event loop still owes the component:
    a [FileReader] that is reading, or a [generateContent] call that has
    been sent. *)
Inductive Task :=
| Reading (f : File.t)
| Calling (req : ConversionRequest).

Record World := mkWorld {
  app : AppState;
  nextUrl : ObjectURL;               (* next fresh object URL *)
  liveUrls : list ObjectURL;         (* created and not yet revoked *)
  pending : list Task;
  remoteLog : list ConversionRequest;  (* requests sent, latest first *)
  consoleLog : list Thrown;          (* arguments of [console.error] *)
  unhandled : list Thrown            (* rejections nobody handles *)
}.

Definition initialApp : AppState := mkApp None [] false [] false.
Definition initialWorld : World := mkWorld initialApp 0 [] [] [] [] [].

(* ================================================================== *)
(** ** geminiService.ts *)
(* ================================================================== *)

Module Msg.
Definition instruction : jsstring :=
  lit "Extract the LaTeX code for the equation in this image. Only return the raw LaTeX code itself, without any surrounding text, explanations, or markdown formatting like ```latex ... ```.".
Definition empty_response : jsstring :=
  lit "Gemini returned an empty response. The equation might not be clear in the image.".
Definition api_key_not_valid : jsstring := lit "API key not valid".
Definition invalid_api_key : jsstring :=
  lit "Invalid API Key. Please check your configuration.".
Definition generic_failure : jsstring :=
  lit "Failed to generate LaTeX from the image. Please try again with a clearer image.".
Definition invalid_input : jsstring :=
  lit "Please select or paste a valid image file.".
Definition no_image : jsstring := lit "Please upload an image first.".
Definition read_failure : jsstring := lit "Failed to read the image file.".
Definition unknown_error : jsstring := lit "An unknown error occurred.".
(** Messages of the engine's [TypeError]s for a property read on
    [undefined] or [null]; the wording is the engine's. *)
Definition type_error_trim : jsstring :=
  lit "Cannot read properties of undefined (reading 'trim')".
Definition type_error_split : jsstring :=
  lit "Cannot read properties of null (reading 'split')".
End Msg.

(** Lines 234-248: the request that is sent. *)
Definition buildRequest (base64ImageData : option jsstring)
                        (mime : jsstring) : ConversionRequest :=
  mkRequest (lit "gemini-2.5-flash")
            (mkInline base64ImageData mime)
            Msg.instruction.

(** Lines 245-255, from the point where the awaited call settles to the
    end of the [try] block. *)
Definition tryBlock (o : RemoteOutcome) : Completion jsstring :=
  match o with
  | Rejected e => Throw e
  | Resolved None => Throw (ErrorObj Msg.type_error_trim)
  | Resolved (Some text) =>
      let latex := trim text in
      if negb (truthy latex) then Throw (ErrorObj Msg.empty_response)
      else Return latex
  end.

(** Lines 257-264: the [catch] clause; it always throws. *)
Definition catchBlock (e : Thrown) : Thrown :=
  match e with
  | ErrorObj message =>
      if includes message Msg.api_key_not_valid
      then ErrorObj Msg.invalid_api_key
      else ErrorObj Msg.generic_failure
  | NonError => ErrorObj Msg.generic_failure
  end.

(** The continuation of [getLatexFromImage] once the remote call has
    settled. *)
Definition resumeGetLatex (o : RemoteOutcome) : Completion jsstring :=
  match tryBlock o with
  | Return latex => Return latex
  | Throw e => Throw (catchBlock e)
  end.

(** What [console.error] receives, if the [catch] clause runs. *)
Definition caught (o : RemoteOutcome) : list Thrown :=
  match tryBlock o with
  | Return _ => []
  | Throw e => [e]
  end.

(** [getLatexFromImage] against a remote service given as a function of
    the request. *)
Definition getLatexFromImage (remote : ConversionRequest -> RemoteOutcome)
    (base64ImageData : option jsstring) (mime : jsstring)
  : Completion jsstring :=
  resumeGetLatex (remote (buildRequest base64ImageData mime)).

(* ================================================================== *)
(** ** App.tsx: state setters and browser effects *)
(* ================================================================== *)

Definition withApp (f : AppState -> AppState) (w : World) : World :=
  mkWorld (f (app w)) (nextUrl w) (liveUrls w) (pending w)
          (remoteLog w) (consoleLog w) (unhandled w).

Definition setLatexCode (v : jsstring) : World -> World :=
  withApp (fun a => mkApp (imageFile a) v (isLoading a) (error a) (isDragging a)).

Definition setIsLoading (v : bool) : World -> World :=
  withApp (fun a => mkApp (imageFile a) (latexCode a) v (error a) (isDragging a)).

Definition setError (v : jsstring) : World -> World :=
  withApp (fun a => mkApp (imageFile a) (latexCode a) (isLoading a) v (isDragging a)).

Definition setIsDragging (v : bool) : World -> World :=
  withApp (fun a => mkApp (imageFile a) (latexCode a) (isLoading a) (error a) v).

(** [URL.revokeObjectURL] *)
Definition revokeObjectURL (u : ObjectURL) (w : World) : World :=
  mkWorld (app w) (nextUrl w) (remove Nat.eq_dec u (liveUrls w)) (pending w)
          (remoteLog w) (consoleLog w) (unhandled w).

(** [URL.createObjectURL]: a fresh handle, live from now on. *)
Definition createObjectURL (w : World) : ObjectURL * World :=
  (nextUrl w,
   mkWorld (app w) (S (nextUrl w)) (nextUrl w :: liveUrls w) (pending w)
           (remoteLog w) (consoleLog w) (unhandled w)).

(** Lines 59-65: the clean-up of the effect that depends on [imageFile].
    It runs when the cell is replaced, with the value being replaced. *)
Definition imageEffectCleanup (old : option ImageFile) (w : World) : World :=
  match old with
  | Some im => revokeObjectURL (preview im) w
  | None => w
  end.

(** [setImageFile], followed by the clean-up of the previous render's
    effect.  Replacing [null] by [null] changes nothing. *)
Definition setImageFile (v : option ImageFile) (w : World) : World :=
  withApp (fun a => mkApp v (latexCode a) (isLoading a) (error a) (isDragging a))
          (imageEffectCleanup (imageFile (app w)) w).

Definition addPending (t : Task) (w : World) : World :=
  mkWorld (app w) (nextUrl w) (liveUrls w) (pending w ++ [t])
          (remoteLog w) (consoleLog w) (unhandled w).

Fixpoint removeAt {A : Type} (i : nat) (l : list A) : list A :=
  match i, l with
  | _, [] => []
  | O, _ :: l' => l'
  | S i', x :: l' => x :: removeAt i' l'
  end.

Fixpoint replaceAt {A : Type} (i : nat) (y : A) (l : list A) : list A :=
  match i, l with
  | _, [] => []
  | O, _ :: l' => y :: l'
  | S i', x :: l' => x :: replaceAt i' y l'
  end.

Definition setPending (p : list Task) (w : World) : World :=
  mkWorld (app w) (nextUrl w) (liveUrls w) p
          (remoteLog w) (consoleLog w) (unhandled w).

Definition sendRequest (req : ConversionRequest) (w : World) : World :=
  mkWorld (app w) (nextUrl w) (liveUrls w) (pending w)
          (req :: remoteLog w) (consoleLog w) (unhandled w).

Definition consoleError (es : list Thrown) (w : World) : World :=
  mkWorld (app w) (nextUrl w) (liveUrls w) (pending w)
          (remoteLog w) (es ++ consoleLog w) (unhandled w).

Definition rejectUnhandled (e : Thrown) (w : World) : World :=
  mkWorld (app w) (nextUrl w) (liveUrls w) (pending w)
          (remoteLog w) (consoleLog w) (e :: unhandled w).

(* ================================================================== *)
(** ** App.tsx: the handlers *)
(* ================================================================== *)

Definition isImageType (ty : jsstring) : bool :=
  startsWith ty (lit "image/").

(** Lines 20-31. *)
Definition processFile (f : option File.t) (w : World) : World :=
  match f with
  | Some f' =>
      if isImageType (File.type f') then
        let (url, w1) := createObjectURL w in
        setError [] (setLatexCode [] (setImageFile (Some (mkImageFile f' url)) w1))
      else setError Msg.invalid_input w
  | None => setError Msg.invalid_input w
  end.

(** The element a paste event is targeted at. *)
Record Element := mkElement {
  isContentEditable : bool;
  tagName : jsstring
}.

Module DataTransferItem.
Record t := mk {
  kind : jsstring;
  type : jsstring;
  getAsFile : option File.t
}.
End DataTransferItem.

Record ClipboardEvent := mkClipboardEvent {
  target : option Element;
  clipboardData : option (list DataTransferItem.t)
}.

(** Line 36: the guard on the event target. *)
Definition isEditableTarget (t : option Element) : bool :=
  match t with
  | Some el =>
      isContentEditable el
      || str_eqb (tagName el) (lit "INPUT")
      || str_eqb (tagName el) (lit "TEXTAREA")
  | None => false
  end.

(** Line 44: the test on one clipboard item. *)
Definition isImageItem (it : DataTransferItem.t) : bool :=
  str_eqb (DataTransferItem.kind it) (lit "file")
  && isImageType (DataTransferItem.type it).

(** Lines 43-50: the loop over the clipboard items.  The boolean is
    whether [event.preventDefault()] was called. *)
Fixpoint pasteLoop (items : list DataTransferItem.t) (w : World)
  : World * bool :=
  match items with
  | [] => (w, false)
  | it :: rest =>
      if isImageItem it
      then (processFile (DataTransferItem.getAsFile it) w, true)
      else pasteLoop rest w
  end.

(** Lines 34-51. *)
Definition handlePaste (event : ClipboardEvent) (w : World) : World * bool :=
  if isEditableTarget (target event) then (w, false)
  else match clipboardData event with
       | None => (w, false)
       | Some items => pasteLoop items w
       end.

(** Lines 67-69: [files?.[0] ?? null]. *)
Definition handleFileChange (files : option (list File.t)) (w : World) : World :=
  processFile (match files with
               | Some l => hd_error l
               | None => None
               end) w.

(** Lines 76-84. *)
Definition handleDragEnter (w : World) : World := setIsDragging true w.
Definition handleDragLeave (w : World) : World := setIsDragging false w.

(** Lines 86-93. *)
Definition handleDrop (files : list File.t) (w : World) : World :=
  let w1 := setIsDragging false w in
  if 0 <? List.length files then handleFileChange (Some files) w1 else w1.

(** Lines 95-123, up to the return of the click handler.  [readThrows] is
    what [readAsDataURL] throws synchronously, if anything: the only way
    into the [catch] clause, since the two callbacks run later and outside
    the [try] block.  (A fresh [FileReader] given a [File] does not throw.) *)
Definition handleGenerateClick (readThrows : option Thrown) (w : World) : World :=
  match imageFile (app w) with
  | None => setError Msg.no_image w
  | Some im =>
      let w1 := setLatexCode [] (setError [] (setIsLoading true w)) in
      let tryBody : Completion World :=
        match readThrows with
        | None => Return (addPending (Reading (file im)) w1)
        | Some e => Throw e
        end in
      match tryBody with
      | Return w2 => w2
      | Throw err =>
          setIsLoading false
            (setError (match err with
                       | ErrorObj message => message
                       | NonError => Msg.unknown_error
                       end) w1)
      end
  end.

(** The read fails: the reader fires [error], then [loadend].
    [onerror] (lines 115-118) stores the message; [onloadend] (lines
    108-114) then runs with [reader.result === null], so [split] throws
    inside the asynchronous callback and its promise rejects unhandled. *)
Definition readerFailed (i : nat) (w : World) : World :=
  match nth_error (pending w) i with
  | Some (Reading _) =>
      let w1 := setIsLoading false (setError Msg.read_failure w) in
      rejectUnhandled (ErrorObj Msg.type_error_split)
                      (setPending (removeAt i (pending w1)) w1)
  | _ => w
  end.

(** The read succeeds with the data URL [result]: lines 109-111 up to the
    await inside [getLatexFromImage], i.e. the request is sent. *)
Definition readerLoaded (i : nat) (result : jsstring) (w : World) : World :=
  match nth_error (pending w) i with
  | Some (Reading f) =>
      let base64String := nth_error (split comma result) 1 in
      let mime := File.type f in
      let req := buildRequest base64String mime in
      sendRequest req (setPending (replaceAt i (Calling req) (pending w)) w)
  | _ => w
  end.

(** The remote call settles: the rest of [getLatexFromImage], then lines
    112-113 if it returned.  If it threw, the promise of the [onloadend]
    callback rejects, and nothing is attached to it. *)
Definition remoteSettled (i : nat) (o : RemoteOutcome) (w : World) : World :=
  match nth_error (pending w) i with
  | Some (Calling _) =>
      let w1 := consoleError (caught o) (setPending (removeAt i (pending w)) w) in
      match resumeGetLatex o with
      | Return result => setIsLoading false (setLatexCode result w1)
      | Throw e => rejectUnhandled e w1
      end
  | _ => w
  end.

(** Lines 125-129. *)
Definition clearImage (w : World) : World :=
  setError [] (setLatexCode [] (setImageFile None w)).

(* ================================================================== *)
(** ** App.tsx: what is rendered, and the events of a session *)
(* ================================================================== *)

(** Lines 144-210: which controls exist after a render. *)
Record View := mkView {
  dropZone : bool;                   (* with the file input inside *)
  previewShown : option ObjectURL;   (* with the clear button on it *)
  generateButton : option bool;      (* [Some disabled] when rendered *)
  errorShown : option jsstring;
  resultShown : option jsstring
}.

Definition render (a : AppState) : View :=
  mkView
    (match imageFile a with None => true | Some _ => false end)
    (option_map preview (imageFile a))
    (match imageFile a with None => None | Some _ => Some (isLoading a) end)
    (if truthy (error a) then Some (error a) else None)
    (if truthy (latexCode a) then Some (latexCode a) else None).

Inductive Event :=
| Paste (event : ClipboardEvent)
| FileChange (files : option (list File.t))
| DragEnter
| DragLeave
| DragOver
| Drop (files : list File.t)
| GenerateClick (readThrows : option Thrown)
| ClearClick
| ReaderError (i : nat)
| ReaderLoad (i : nat) (result : jsstring)
| RemoteSettles (i : nat) (o : RemoteOutcome).

Definition step (e : Event) (w : World) : World :=
  match e with
  | Paste event => fst (handlePaste event w)
  | FileChange files => handleFileChange files w
  | DragEnter => handleDragEnter w
  | DragLeave => handleDragLeave w
  | DragOver => w
  | Drop files => handleDrop files w
  | GenerateClick readThrows => handleGenerateClick readThrows w
  | ClearClick => clearImage w
  | ReaderError i => readerFailed i w
  | ReaderLoad i result => readerLoaded i result w
  | RemoteSettles i o => remoteSettled i o w
  end.

(** An event can happen in [w] when its control is rendered (and, for a
    button, not disabled), or when the task it resumes is pending. *)
Definition enabled (e : Event) (w : World) : bool :=
  match e with
  | Paste _ => true
  | FileChange _ | DragEnter | DragLeave | DragOver | Drop _ =>
      dropZone (render (app w))
  | GenerateClick _ =>
      match generateButton (render (app w)) with
      | Some disabled => negb disabled
      | None => false
      end
  | ClearClick =>
      match previewShown (render (app w)) with
      | Some _ => true
      | None => false
      end
  | ReaderError i | ReaderLoad i _ =>
      match nth_error (pending w) i with
      | Some (Reading _) => true
      | _ => false
      end
  | RemoteSettles i _ =>
      match nth_error (pending w) i with
      | Some (Calling _) => true
      | _ => false
      end
  end.

Fixpoint run (es : list Event) (w : World) : World :=
  match es with
  | [] => w
  | e :: es' => run es' (step e w)
  end.

(** Every event of the trace can happen when its turn comes. *)
Fixpoint possible (es : list Event) (w : World) : bool :=
  match es with
  | [] => true
  | e :: es' => enabled e w && possible es' (step e w)
  end.

(** A state of a session: reached from the initial render by events that
    can happen. *)
Definition reachable (w : World) : Prop :=
  exists es, possible es initialWorld = true /\ run es initialWorld = w.

(** Events that stay inside what the specification treats as defined: the
    image is not cleared while a conversion is pending, and a clipboard
    item that passes the test of line 44 hands over a file of an image
    type.  (The source enforces neither.) *)
Definition yieldsImage (it : DataTransferItem.t) : bool :=
  match DataTransferItem.getAsFile it with
  | Some f => isImageType (File.type f)
  | None => false
  end.

Definition calm (e : Event) (w : World) : bool :=
  match e with
  | ClearClick => match pending w with [] => true | _ :: _ => false end
  | Paste event =>
      match clipboardData event with
      | Some items =>
          forallb (fun it => implb (isImageItem it) (yieldsImage it)) items
      | None => true
      end
  | _ => true
  end.

Fixpoint orderly (es : list Event) (w : World) : bool :=
  match es with
  | [] => true
  | e :: es' => enabled e w && calm e w && orderly es' (step e w)
  end.

(** What the restricted sessions preserve: with a task pending there is
    an image, the loading flag is set and neither message nor result is
    present; with none pending, at most one of the two is present, and a
    result only next to an image.  At most one task is pending. *)
Definition tidy (w : World) : bool :=
  match pending w with
  | [] =>
      (negb (truthy (error (app w))) || negb (truthy (latexCode (app w))))
      && (match imageFile (app w) with
          | Some _ => true
          | None => negb (truthy (latexCode (app w)))
          end)
  | [_] =>
      match imageFile (app w) with Some _ => true | None => false end
      && isLoading (app w)
      && negb (truthy (error (app w)))
      && negb (truthy (latexCode (app w)))
  | _ :: _ :: _ => false
  end.

(** Line 44 in words: an item of kind ["file"] whose type starts with
    ["image/"]. *)
Definition qualifies (it : DataTransferItem.t) : Prop :=
  DataTransferItem.kind it = lit "file"
  /\ startsWith (DataTransferItem.type it) (lit "image/") = true.

(** The instruction as the specification quotes it. *)
Definition specInstruction : jsstring :=
  lit "Extract the LaTeX code for the equation in this image. Only return the raw LaTeX code itself, without any surrounding text, explanations, or markdown formatting.".

Definition carriesInstruction (req : ConversionRequest) : Prop :=
  textPart req = Msg.instruction.

(** In the specification's words: [t] is [resp] with the surrounding
    whitespace trimmed, i.e. [resp] is [t] between two runs of whitespace
    and [t] neither starts nor ends with whitespace. *)
Definition whitespaceTrimmed (resp t : jsstring) : Prop :=
  exists l r,
    resp = l ++ t ++ r
    /\ forallb isWhiteSpace l = true
    /\ forallb isWhiteSpace r = true
    /\ (forall c, hd_error t = Some c -> isWhiteSpace c = false)
    /\ (forall c, hd_error (rev t) = Some c -> isWhiteSpace c = false).

(** The object URLs the image on display accounts for. *)
Definition urlsOfImage (a : AppState) : list ObjectURL :=
  match imageFile a with
  | Some im => [preview im]
  | None => []
  end.

(** Nothing is live but the preview on display, and it was handed out
    before [nextUrl]. *)
Definition urlsTidy (w : World) : Prop :=
  liveUrls w = urlsOfImage (app w)
  /\ (forall im, imageFile (app w) = Some im -> preview im < nextUrl w).

(** At most one task is pending, and while it is the loading flag is
    set. *)
Definition singleFlight (w : World) : bool :=
  match pending w with
  | [] => true
  | [_] => isLoading (app w)
  | _ :: _ :: _ => false
  end.

Definition isReading (t : Task) : bool :=
  match t with Reading _ => true | Calling _ => false end.

(** Reads that have not yet turned into a request. *)
Definition readingCount (p : list Task) : nat :=
  List.length (filter isReading p).

(** Clicks on the generate button in a trace. *)
Fixpoint countClicks (es : list Event) : nat :=
  match es with
  | [] => 0
  | GenerateClick _ :: es' => S (countClicks es')
  | _ :: es' => countClicks es'
  end.

(** Requests sent, plus reads that may still turn into one. *)
Definition owed (w : World) : nat :=
  List.length (remoteLog w) + readingCount (pending w).

(** Traces in which [readAsDataURL] never throws. *)
Definition noSyncThrow (es : list Event) : bool :=
  forallb (fun e => match e with
                    | GenerateClick (Some _) => false
                    | _ => true
                    end) es.

(** The messages [App.tsx] can store without a synchronous throw. *)
Definition isLocalMessage (m : jsstring) : bool :=
  str_eqb m [] || str_eqb m Msg.invalid_input || str_eqb m Msg.read_failure.

(** A file as the clipboard offers it: kind ["file"], the file's type,
    and the file itself from [getAsFile]. *)
Definition itemOfFile (f : File.t) : DataTransferItem.t :=
  DataTransferItem.mk (lit "file") (File.type f) (Some f).

(** Sample inputs. *)
Module Sample.
Definition png : File.t :=
  File.mk (lit "equation.png") (lit "image/png") 2097152.
Definition txt : File.t :=
  File.mk (lit "notes.txt") (lit "text/plain") 12.
Definition dataUrl : jsstring := lit "data:image/png;base64,iVBORw0KGgo=".
Definition body : Element := mkElement false (lit "BODY").
Definition pngItem : DataTransferItem.t :=
  DataTransferItem.mk (lit "file") (lit "image/png") (Some png).
Definition textItem : DataTransferItem.t :=
  DataTransferItem.mk (lit "string") (lit "text/plain") None.
(** A conversion of [png] up to the point where the request is out. *)
Definition upToRequest : list Event :=
  [Drop [png]; GenerateClick None; ReaderLoad 0 dataUrl].
End Sample.

(** Proof steps shared by the state lemmas. *)
Ltac open_world w :=
  destruct w as [[img lc ld er dr] nu lv pd rl cl uh];
  destruct pd as [|t [|t' pd]]; unfold tidy in *; simpl in *;
  try discriminate.

Ltac open_flight w :=
  destruct w as [[img lc ld er dr] nu lv pd rl cl uh];
  destruct pd as [|t [|t' pd]]; unfold singleFlight in *; simpl in *;
  try discriminate.

Ltac crush_bools :=
  repeat match goal with
         | H : _ && _ = true |- _ => apply andb_true_iff in H as [? ?]
         | H : ?b = true |- context [?b] => rewrite H
         | H : ?b = false |- context [?b] => rewrite H
         end;
  simpl in *; rewrite ?orb_true_r, ?andb_true_r;
  try reflexivity; try discriminate; try assumption.

(* ================================================================== *)
(** ** Facts about the built-ins *)
(* ================================================================== *)

Lemma str_eqb_eq (a b : jsstring) : str_eqb a b = true <-> a = b.
Proof.
  revert b; induction a as [|x a IH]; intros [|y b]; simpl; split;
    try congruence; try reflexivity.
  - intros H. apply andb_true_iff in H as [Hx Hab].
    apply N.eqb_eq in Hx. apply IH in Hab. congruence.
  - intros H. injection H as -> ->.
    apply andb_true_iff. split; [apply N.eqb_refl | now apply IH].
Qed.

Lemma truthy_false (s : jsstring) : truthy s = false <-> s = [].
Proof. destruct s; simpl; split; congruence. Qed.

Lemma trimStart_prefix (s : jsstring) :
  exists l, s = l ++ trimStart s /\ forallb isWhiteSpace l = true.
Proof.
  induction s as [|c s IH]; simpl.
  - exists []. split; reflexivity.
  - destruct (isWhiteSpace c) eqn:Hc.
    + destruct IH as (l & Hl & Hws). exists (c :: l). simpl.
      rewrite Hc, Hws. split; [now f_equal | reflexivity].
    + exists []. split; reflexivity.
Qed.

Lemma trimStart_head (s : jsstring) (c : code_unit) :
  hd_error (trimStart s) = Some c -> isWhiteSpace c = false.
Proof.
  induction s as [|d s IH]; simpl; [discriminate|].
  destruct (isWhiteSpace d) eqn:Hd; [exact IH|].
  simpl. intros [= <-]. exact Hd.
Qed.

Lemma forallb_rev {A} (p : A -> bool) (l : list A) :
  forallb p (rev l) = forallb p l.
Proof.
  induction l as [|x l IH]; simpl; [reflexivity|].
  rewrite forallb_app, IH. simpl. rewrite andb_true_r. apply andb_comm.
Qed.

Lemma trimEnd_suffix (s : jsstring) :
  exists r, s = trimEnd s ++ r /\ forallb isWhiteSpace r = true.
Proof.
  unfold trimEnd. destruct (trimStart_prefix (rev s)) as (l & Hl & Hws).
  exists (rev l). split.
  - rewrite <- rev_app_distr, <- Hl. symmetry. apply rev_involutive.
  - now rewrite forallb_rev.
Qed.

Lemma trimEnd_last (s : jsstring) (c : code_unit) :
  hd_error (rev (trimEnd s)) = Some c -> isWhiteSpace c = false.
Proof.
  unfold trimEnd. rewrite rev_involutive. apply trimStart_head.
Qed.

Lemma hd_error_app_left {A} (t r : list A) (c : A) :
  hd_error t = Some c -> hd_error (t ++ r) = Some c.
Proof. destruct t; simpl; [discriminate | trivial]. Qed.

(** [trim] does what the specification calls trimming the surrounding
    whitespace. *)
Lemma trim_whitespaceTrimmed (s : jsstring) : whitespaceTrimmed s (trim s).
Proof.
  unfold trim.
  destruct (trimStart_prefix s) as (l & Hl & Hlws).
  destruct (trimEnd_suffix (trimStart s)) as (r & Hr & Hrws).
  exists l, r. repeat split; trivial.
  - rewrite <- Hr. exact Hl.
  - intros c Hc. apply (trimStart_head s).
    rewrite Hr. now apply hd_error_app_left.
  - apply trimEnd_last.
Qed.

(** The result is determined by the specification's wording: there is only
    one way to cut whitespace off both ends. *)
Lemma ws_prefix_unique (l1 l2 t1 t2 : jsstring) :
  l1 ++ t1 = l2 ++ t2 ->
  forallb isWhiteSpace l1 = true -> forallb isWhiteSpace l2 = true ->
  (forall c, hd_error t1 = Some c -> isWhiteSpace c = false) ->
  (forall c, hd_error t2 = Some c -> isWhiteSpace c = false) ->
  t1 <> [] -> t2 <> [] ->
  l1 = l2 /\ t1 = t2.
Proof.
  revert l2. induction l1 as [|x l1 IH]; intros [|y l2]; simpl;
    intros Heq H1 H2 Ht1 Ht2 N1 N2.
  - now split.
  - exfalso. apply andb_true_iff in H2 as [Hy _].
    destruct t1 as [|c t1]; [congruence|]. injection Heq as -> _.
    specialize (Ht1 y eq_refl). congruence.
  - exfalso. apply andb_true_iff in H1 as [Hx _].
    destruct t2 as [|c t2]; [congruence|]. injection Heq as <- _.
    specialize (Ht2 x eq_refl). congruence.
  - apply andb_true_iff in H1 as [_ H1]. apply andb_true_iff in H2 as [_ H2].
    injection Heq as -> Heq.
    destruct (IH l2 Heq H1 H2 Ht1 Ht2 N1 N2) as [-> ->]. now split.
Qed.

Lemma ws_all_no_core (l t r : jsstring) (s : jsstring) :
  s = l ++ t ++ r -> forallb isWhiteSpace s = true ->
  (forall c, hd_error t = Some c -> isWhiteSpace c = false) -> t = [].
Proof.
  intros -> Hs Ht. rewrite !forallb_app in Hs.
  apply andb_true_iff in Hs as [_ Hs]. apply andb_true_iff in Hs as [Hs _].
  destruct t as [|c t]; [reflexivity|]. simpl in Hs.
  apply andb_true_iff in Hs as [Hc _]. specialize (Ht c eq_refl). congruence.
Qed.

Lemma whitespaceTrimmed_unique (resp t1 t2 : jsstring) :
  whitespaceTrimmed resp t1 -> whitespaceTrimmed resp t2 -> t1 = t2.
Proof.
  intros (l1 & r1 & E1 & Hl1 & Hr1 & Hh1 & Hz1)
         (l2 & r2 & E2 & Hl2 & Hr2 & Hh2 & Hz2).
  destruct t1 as [|a t1].
  - symmetry. apply (@ws_all_no_core l2 _ r2 _ E2); [|exact Hh2].
    rewrite E1. simpl. rewrite forallb_app, Hl1, Hr1. reflexivity.
  - destruct t2 as [|b t2].
    + apply (@ws_all_no_core l1 _ r1 _ E1); [|exact Hh1].
      rewrite E2. simpl. rewrite forallb_app, Hl2, Hr2. reflexivity.
    + assert (H : l1 = l2 /\ (a :: t1) ++ r1 = (b :: t2) ++ r2).
      { apply ws_prefix_unique; trivial; try discriminate. congruence. }
      destruct H as [_ H].
      apply (f_equal (@rev _)) in H. rewrite !rev_app_distr in H.
      assert (H' : rev r1 = rev r2 /\ rev (a :: t1) = rev (b :: t2)).
      { apply ws_prefix_unique; trivial.
        - now rewrite forallb_rev.
        - now rewrite forallb_rev.
        - intros E. apply (f_equal (@rev _)) in E.
          rewrite rev_involutive in E. discriminate.
        - intros E. apply (f_equal (@rev _)) in E.
          rewrite rev_involutive in E. discriminate. }
      destruct H' as [_ H'].
      apply (f_equal (@rev _)) in H'. now rewrite !rev_involutive in H'.
Qed.

(* ================================================================== *)
(** ** The service: [getLatexFromImage] *)
(* ================================================================== *)

Lemma catchBlock_messages (e : Thrown) :
  catchBlock e = ErrorObj Msg.invalid_api_key
  \/ catchBlock e = ErrorObj Msg.generic_failure.
Proof.
  destruct e as [m|]; simpl; [|now right].
  destruct (includes m Msg.api_key_not_valid); [now left | now right].
Qed.

Lemma resumeGetLatex_return (o : RemoteOutcome) (t : jsstring) :
  resumeGetLatex o = Return t ->
  exists resp, o = Resolved (Some resp) /\ t = trim resp /\ t <> [].
Proof.
  unfold resumeGetLatex, tryBlock.
  destruct o as [[resp|]|e]; try discriminate.
  destruct (truthy (trim resp)) eqn:Ht; simpl; [|discriminate].
  intros [= <-]. exists resp. repeat split.
  intros E. rewrite E in Ht. discriminate.
Qed.

Lemma resumeGetLatex_empty (resp : jsstring) :
  trim resp = [] ->
  resumeGetLatex (Resolved (Some resp)) = Throw (ErrorObj Msg.generic_failure).
Proof.
  intros E. unfold resumeGetLatex, tryBlock. rewrite E. reflexivity.
Qed.

(** [getLatexFromImage] settles in exactly one of two ways.  If it returns,
    the remote call answered with a text, the returned LaTeX is that text
    with the surrounding whitespace trimmed, and it is not empty; otherwise
    it throws one of the two failure messages of the [catch] clause.  The
    answer [" \frac{1}{2} "] gives ["\frac{1}{2}"]. *)
Theorem generate_outcome_trimmed_nonempty :
  (forall remote base64 mime,
      match getLatexFromImage remote base64 mime with
      | Return t =>
          exists resp,
            remote (buildRequest base64 mime) = Resolved (Some resp)
            /\ t = trim resp
            /\ whitespaceTrimmed resp t
            /\ t <> []
      | Throw e =>
          e = ErrorObj Msg.invalid_api_key \/ e = ErrorObj Msg.generic_failure
      end)
  /\ (forall base64 mime,
        getLatexFromImage (fun _ => Resolved (Some (lit " \frac{1}{2} ")))
                          base64 mime
        = Return (lit "\frac{1}{2}")).
Proof.
  split.
  - intros remote base64 mime. unfold getLatexFromImage.
    destruct (resumeGetLatex (remote (buildRequest base64 mime))) as [t|e] eqn:E.
    + destruct (resumeGetLatex_return _ E) as (resp & Hr & Ht & Hne).
      exists resp. repeat split; trivial.
      rewrite Ht. apply trim_whitespaceTrimmed.
    + unfold resumeGetLatex in E.
      destruct (tryBlock (remote (buildRequest base64 mime))); [discriminate|].
      injection E as <-. apply catchBlock_messages.
  - reflexivity.
Qed.

(** C1 (the code departs from it). The remote call answers with the empty
    string.  The [try] block throws the empty-response message, the
    [catch] clause of the same function replaces it by the generic
    failure message, and in the component the rejection is not handled:
    no error message is stored and the loading flag stays set. *)
Theorem empty_response_message_replaced :
  let remote := fun _ : ConversionRequest => Resolved (Some []) in
  let w := run (Sample.upToRequest ++ [RemoteSettles 0 (Resolved (Some []))])
               initialWorld in
  tryBlock (Resolved (Some [])) = Throw (ErrorObj Msg.empty_response)
  /\ getLatexFromImage remote (Some (lit "iVBORw0KGgo=")) (lit "image/png")
     = Throw (ErrorObj Msg.generic_failure)
  /\ Msg.generic_failure <> Msg.empty_response
  /\ possible (Sample.upToRequest ++ [RemoteSettles 0 (Resolved (Some []))])
              initialWorld = true
  /\ error (app w) = []
  /\ isLoading (app w) = true
  /\ unhandled w = [ErrorObj Msg.generic_failure].
Proof.
  cbv zeta. repeat split; try reflexivity. discriminate.
Qed.

(* ================================================================== *)
(** ** What is sent to the remote service *)
(* ================================================================== *)

(** [processFile] touches the cells of the component and the object
    URLs, nothing else. *)
Lemma processFile_frame (f : option File.t) (w : World) :
  pending (processFile f w) = pending w
  /\ remoteLog (processFile f w) = remoteLog w
  /\ consoleLog (processFile f w) = consoleLog w
  /\ unhandled (processFile f w) = unhandled w.
Proof.
  unfold processFile. destruct f as [f|]; [|repeat split].
  destruct (isImageType (File.type f)); simpl; [|repeat split].
  destruct (imageFile (app w)); repeat split.
Qed.

(** The loop of [handlePaste] stops at the first item that passes the
    test of line 44, and submits what that item hands over. *)
Lemma pasteLoop_cases (items : list DataTransferItem.t) (w : World) :
  (Forall (fun it => isImageItem it = false) items
   /\ pasteLoop items w = (w, false))
  \/ exists before it after,
       items = before ++ it :: after
       /\ Forall (fun x => isImageItem x = false) before
       /\ isImageItem it = true
       /\ pasteLoop items w
          = (processFile (DataTransferItem.getAsFile it) w, true).
Proof.
  induction items as [|x items IH]; simpl.
  - left. split; [constructor | reflexivity].
  - destruct (isImageItem x) eqn:Hx.
    + right. exists [], x, items. repeat split; trivial.
    + destruct IH as [[Hall Heq] | (before & it & after & -> & Hb & Hit & Heq)].
      * left. split; [now constructor | exact Heq].
      * right. exists (x :: before), it, after. repeat split; trivial.
        now constructor.
Qed.

Lemma handlePaste_cases (event : ClipboardEvent) (w : World) :
  fst (handlePaste event w) = w
  \/ exists it items,
       clipboardData event = Some items /\ In it items
       /\ isImageItem it = true
       /\ fst (handlePaste event w)
          = processFile (DataTransferItem.getAsFile it) w.
Proof.
  unfold handlePaste. destruct (isEditableTarget _); [now left|].
  destruct (clipboardData event) as [items|]; [|now left].
  destruct (pasteLoop_cases items w)
    as [[_ ->] | (before & it & after & -> & _ & Hit & ->)]; [now left|].
  right. exists it, (before ++ it :: after). repeat split; trivial.
  apply in_elt.
Qed.

(** Only [readerLoaded] writes to the log of requests. *)
Lemma step_remoteLog (e : Event) (w : World) :
  remoteLog (step e w) = remoteLog w
  \/ exists base64 mime,
       remoteLog (step e w) = buildRequest base64 mime :: remoteLog w.
Proof.
  destruct e; simpl.
  - left. destruct (handlePaste_cases event w) as [-> | (it & _ & _ & _ & _ & ->)];
      [reflexivity | apply processFile_frame].
  - left. apply processFile_frame.
  - now left.
  - now left.
  - now left.
  - left. unfold handleDrop, handleFileChange.
    destruct (0 <? List.length files); [|reflexivity].
    now rewrite (proj1 (proj2 (processFile_frame _ _))).
  - left. unfold handleGenerateClick.
    destruct (imageFile (app w)); [|reflexivity].
    destruct readThrows; reflexivity.
  - left. unfold clearImage, setImageFile.
    destruct (imageFile (app w)); reflexivity.
  - left. unfold readerFailed.
    destruct (nth_error (pending w) i) as [[f|req]|]; reflexivity.
  - unfold readerLoaded.
    destruct (nth_error (pending w) i) as [[f|req]|]; try (now left).
    right. eexists _, _. reflexivity.
  - left. unfold remoteSettled.
    destruct (nth_error (pending w) i) as [[f|req]|]; try reflexivity.
    destruct (resumeGetLatex o); reflexivity.
Qed.

Lemma remoteLog_instruction (es : list Event) (w : World) :
  Forall carriesInstruction (remoteLog w) ->
  Forall carriesInstruction (remoteLog (run es w)).
Proof.
  revert w. induction es as [|e es IH]; intros w Hw; simpl; [exact Hw|].
  apply IH. destruct (step_remoteLog e w) as [-> | (b & m & ->)]; trivial.
  constructor; [reflexivity | exact Hw].
Qed.

(** C6 as the specification words it does not hold: the request of a
    plain conversion carries an instruction that differs from the
    sentence quoted there. *)
Lemma instruction_is_not_the_quoted_sentence :
  ~ (forall es req,
        In req (remoteLog (run es initialWorld)) ->
        textPart req = specInstruction).
Proof.
  intros H.
  specialize (H Sample.upToRequest
                (buildRequest (Some (lit "iVBORw0KGgo=")) (lit "image/png"))
                (or_introl eq_refl)).
  discriminate H.
Qed.

(** C6, amended. Every request that is sent, whatever events led to it,
    carries the one instruction string of the source, which is the
    quoted sentence with its final full stop replaced by
    [" like ```latex ... ```."]. *)
Theorem every_request_carries_the_instruction :
  (forall es req,
      In req (remoteLog (run es initialWorld)) ->
      textPart req = Msg.instruction)
  /\ (forall base64 mime, textPart (buildRequest base64 mime) = Msg.instruction)
  /\ Msg.instruction
     = removelast specInstruction ++ lit " like ```latex ... ```.".
Proof.
  split; [|split].
  - intros es req Hin.
    assert (H : Forall carriesInstruction (remoteLog (run es initialWorld)))
      by (apply remoteLog_instruction; constructor).
    rewrite Forall_forall in H. exact (H req Hin).
  - reflexivity.
  - reflexivity.
Qed.

Lemma every_request_carries_the_instruction_witness :
  In (buildRequest (Some (lit "iVBORw0KGgo=")) (lit "image/png"))
     (remoteLog (run Sample.upToRequest initialWorld))
  /\ textPart (buildRequest (Some (lit "iVBORw0KGgo=")) (lit "image/png"))
     = Msg.instruction.
Proof.
  split.
  - left. reflexivity.
  - apply (proj1 every_request_carries_the_instruction Sample.upToRequest).
    left. reflexivity.
Defined.

(* ================================================================== *)
(** ** Failures of the pipeline *)
(* ================================================================== *)

(** A failed remote call changes no cell of the component: the rejection
    goes to nobody. *)
Lemma remoteSettled_throw (i : nat) (o : RemoteOutcome) (w : World)
      (req : ConversionRequest) (e : Thrown) :
  nth_error (pending w) i = Some (Calling req) ->
  resumeGetLatex o = Throw e ->
  app (remoteSettled i o w) = app w
  /\ unhandled (remoteSettled i o w) = e :: unhandled w.
Proof.
  intros Hp Hr. unfold remoteSettled. rewrite Hp, Hr. split; reflexivity.
Qed.

(** C2 (the code departs from it). The read succeeds and the remote call
    is rejected.  [getLatexFromImage] throws inside the [onloadend]
    callback, which runs after the [try] block of the click handler has
    been left: the error message stays empty, the loading flag stays set
    (so the button stays disabled), and the rejection is unhandled. *)
Theorem remote_failure_escapes_the_handler :
  let es := Sample.upToRequest
            ++ [RemoteSettles 0 (Rejected (ErrorObj (lit "fetch failed")))] in
  let w := run es initialWorld in
  possible es initialWorld = true
  /\ error (app w) = []
  /\ isLoading (app w) = true
  /\ latexCode (app w) = []
  /\ pending w = []
  /\ unhandled w = [ErrorObj Msg.generic_failure]
  /\ enabled (GenerateClick None) w = false.
Proof.
  cbv zeta. repeat split; reflexivity.
Qed.

(* ================================================================== *)
(** ** Input acquisition: [processFile], paste, picker and drop *)
(* ================================================================== *)

Lemma processFile_accepts (f : File.t) (w : World) :
  isImageType (File.type f) = true ->
  app (processFile (Some f) w)
  = mkApp (Some (mkImageFile f (nextUrl w))) []
          (isLoading (app w)) [] (isDragging (app w)).
Proof.
  intros H. unfold processFile. rewrite H. simpl.
  destruct (imageFile (app w)); reflexivity.
Qed.

Lemma processFile_rejects (f : option File.t) (w : World) :
  match f with
  | Some f' => isImageType (File.type f') = false
  | None => True
  end ->
  processFile f w = setError Msg.invalid_input w.
Proof.
  unfold processFile. destruct f as [f|]; [intros ->|]; reflexivity.
Qed.

(** C3. A file whose type starts with ["image/"] becomes the selected
    image, under a fresh preview handle and in place of whatever was
    selected, and the error message and the result are emptied.  Any
    other file, or no file, leaves the selection (and every cell but the
    error message) as it was and stores the invalid-input message. *)
Theorem processFile_selects_or_reports (w : World) :
  (forall f,
      startsWith (File.type f) (lit "image/") = true ->
      let w' := processFile (Some f) w in
      imageFile (app w') = Some (mkImageFile f (nextUrl w))
      /\ error (app w') = []
      /\ latexCode (app w') = [])
  /\ (forall f,
        startsWith (File.type f) (lit "image/") = false ->
        let w' := processFile (Some f) w in
        imageFile (app w') = imageFile (app w)
        /\ error (app w') = lit "Please select or paste a valid image file."
        /\ w' = setError Msg.invalid_input w)
  /\ (let w' := processFile None w in
      imageFile (app w') = imageFile (app w)
      /\ error (app w') = lit "Please select or paste a valid image file."
      /\ w' = setError Msg.invalid_input w).
Proof.
  split; [|split].
  - intros f Hf w'. subst w'.
    rewrite (processFile_accepts f w Hf). simpl. repeat split.
  - intros f Hf w'. subst w'.
    rewrite (processFile_rejects (Some f) w Hf). repeat split.
  - cbv zeta. rewrite (processFile_rejects None w I). repeat split.
Qed.

Lemma processFile_selects_or_reports_witness :
  let w := run [Drop [Sample.png]] initialWorld in
  (imageFile (app (processFile (Some Sample.png) w))
   = Some (mkImageFile Sample.png 1))
  /\ imageFile (app (processFile (Some Sample.txt) w)) = imageFile (app w).
Proof.
  cbv zeta. split.
  - apply (proj1 (processFile_selects_or_reports
                    (run [Drop [Sample.png]] initialWorld)) Sample.png).
    reflexivity.
  - apply (proj1 (proj2 (processFile_selects_or_reports
                    (run [Drop [Sample.png]] initialWorld))) Sample.txt).
    reflexivity.
Defined.

(** C4. With no image selected, the click handler stores the message
    ["Please upload an image first."] and does nothing else: no request is
    sent, no read is started that could lead to one, and every other cell
    keeps its value. *)
Theorem generate_without_image (readThrows : option Thrown) (w : World) :
  imageFile (app w) = None ->
  let w' := handleGenerateClick readThrows w in
  error (app w') = lit "Please upload an image first."
  /\ remoteLog w' = remoteLog w
  /\ pending w' = pending w
  /\ imageFile (app w') = None
  /\ latexCode (app w') = latexCode (app w)
  /\ isLoading (app w') = isLoading (app w)
  /\ w' = setError (lit "Please upload an image first.") w.
Proof.
  intros H. unfold handleGenerateClick. rewrite H. simpl. repeat split.
  exact H.
Qed.

Lemma generate_without_image_witness :
  error (app (handleGenerateClick None initialWorld))
  = lit "Please upload an image first."
  /\ remoteLog (handleGenerateClick None initialWorld) = [].
Proof.
  destruct (generate_without_image None initialWorld eq_refl)
    as (He & Hr & _).
  split; [exact He | exact Hr].
Defined.

(** C8. [clearImage] run twice gives what it gives run once, and from any
    state it leaves no image, no result and no error: what is rendered is
    the drop zone alone. *)
Theorem clearImage_idempotent_and_idle (w : World) :
  clearImage (clearImage w) = clearImage w
  /\ imageFile (app (clearImage w)) = None
  /\ latexCode (app (clearImage w)) = []
  /\ error (app (clearImage w)) = []
  /\ render (app (clearImage w)) = mkView true None None None None.
Proof.
  unfold clearImage, setImageFile.
  destruct (imageFile (app w)); repeat split.
Qed.

Lemma isEditableTarget_iff (el : Element) :
  isEditableTarget (Some el) = true
  <-> isContentEditable el = true
      \/ tagName el = lit "INPUT"
      \/ tagName el = lit "TEXTAREA".
Proof.
  unfold isEditableTarget. rewrite !orb_true_iff, !str_eqb_eq. tauto.
Qed.

Lemma isImageItem_iff (it : DataTransferItem.t) :
  isImageItem it = true <-> qualifies it.
Proof.
  unfold isImageItem, isImageType, qualifies.
  rewrite andb_true_iff, str_eqb_eq. tauto.
Qed.

Lemma pasteLoop_first (before after : list DataTransferItem.t)
      (it : DataTransferItem.t) (w : World) :
  Forall (fun x => ~ qualifies x) before ->
  qualifies it ->
  pasteLoop (before ++ it :: after) w
  = (processFile (DataTransferItem.getAsFile it) w, true).
Proof.
  intros Hb Hit. induction Hb as [|x before Hx Hb IH]; simpl.
  - apply isImageItem_iff in Hit. now rewrite Hit.
  - destruct (isImageItem x) eqn:E; [|exact IH].
    apply isImageItem_iff in E. contradiction.
Qed.

Lemma pasteLoop_none (items : list DataTransferItem.t) (w : World) :
  Forall (fun x => ~ qualifies x) items -> pasteLoop items w = (w, false).
Proof.
  intros H. induction H as [|x items Hx H IH]; simpl; [reflexivity|].
  destruct (isImageItem x) eqn:E; [|exact IH].
  apply isImageItem_iff in E. contradiction.
Qed.

(** C9. A paste into an editable element (content-editable, [INPUT] or
    [TEXTAREA]) changes nothing and is not intercepted.  Elsewhere, what
    the first clipboard item of kind ["file"] and of a type starting with
    ["image/"] hands over goes to [processFile], and the event is
    intercepted; when there is no such item, or no clipboard data, nothing
    changes: no error message is stored. *)
Theorem handlePaste_filters (event : ClipboardEvent) (w : World) :
  (forall el,
      target event = Some el ->
      isContentEditable el = true
      \/ tagName el = lit "INPUT" \/ tagName el = lit "TEXTAREA" ->
      handlePaste event w = (w, false))
  /\ (forall before it after,
        isEditableTarget (target event) = false ->
        clipboardData event = Some (before ++ it :: after) ->
        Forall (fun x => ~ qualifies x) before ->
        qualifies it ->
        handlePaste event w
        = (processFile (DataTransferItem.getAsFile it) w, true))
  /\ (forall items,
        isEditableTarget (target event) = false ->
        clipboardData event = Some items ->
        Forall (fun x => ~ qualifies x) items ->
        handlePaste event w = (w, false))
  /\ (clipboardData event = None -> handlePaste event w = (w, false)).
Proof.
  unfold handlePaste. repeat split.
  - intros el Ht Hel. rewrite Ht.
    now rewrite (proj2 (isEditableTarget_iff el) Hel).
  - intros before it after -> -> Hb Hit. now apply pasteLoop_first.
  - intros items -> -> H. now apply pasteLoop_none.
  - intros ->. now destruct (isEditableTarget (target event)).
Qed.

Lemma handlePaste_filters_witness :
  let event := mkClipboardEvent (Some Sample.body)
                                (Some [Sample.textItem; Sample.pngItem]) in
  handlePaste event initialWorld
  = (processFile (Some Sample.png) initialWorld, true)
  /\ handlePaste (mkClipboardEvent (Some (mkElement false (lit "TEXTAREA")))
                                   (Some [Sample.pngItem])) initialWorld
     = (initialWorld, false)
  /\ handlePaste (mkClipboardEvent (Some Sample.body) (Some [Sample.textItem]))
                 initialWorld
     = (initialWorld, false)
  /\ handlePaste (mkClipboardEvent (Some Sample.body) None) initialWorld
     = (initialWorld, false).
Proof.
  cbv zeta. split; [|split; [|split]].
  - apply (proj1 (proj2 (handlePaste_filters
             (mkClipboardEvent (Some Sample.body)
                               (Some [Sample.textItem; Sample.pngItem]))
             initialWorld)) [Sample.textItem] Sample.pngItem []).
    + reflexivity.
    + reflexivity.
    + constructor; [|constructor]. intros [H _]. discriminate H.
    + split; reflexivity.
  - apply (proj1 (handlePaste_filters
             (mkClipboardEvent (Some (mkElement false (lit "TEXTAREA")))
                               (Some [Sample.pngItem]))
             initialWorld) (mkElement false (lit "TEXTAREA"))).
    + reflexivity.
    + right. right. reflexivity.
  - apply (proj1 (proj2 (proj2 (handlePaste_filters
             (mkClipboardEvent (Some Sample.body) (Some [Sample.textItem]))
             initialWorld))) [Sample.textItem]).
    + reflexivity.
    + reflexivity.
    + constructor; [|constructor]. intros [H _]. discriminate H.
  - apply (proj2 (proj2 (proj2 (handlePaste_filters
             (mkClipboardEvent (Some Sample.body) None) initialWorld)))).
    reflexivity.
Defined.

(** C10. A drop that carries no file stores no error message and touches
    neither the selection nor the result: all it does is lower the
    dragging flag.  A change of the file input with no file (no list, or
    an empty one) reaches [processFile] with [null] and stores the
    invalid-input message. *)
Theorem empty_drop_is_silent_but_empty_pick_reports (w : World) :
  (handleDrop [] w = setIsDragging false w
   /\ error (app (handleDrop [] w)) = error (app w)
   /\ imageFile (app (handleDrop [] w)) = imageFile (app w)
   /\ latexCode (app (handleDrop [] w)) = latexCode (app w)
   /\ isLoading (app (handleDrop [] w)) = isLoading (app w))
  /\ (handleFileChange None w = processFile None w
      /\ handleFileChange (Some []) w = processFile None w
      /\ error (app (handleFileChange None w))
         = lit "Please select or paste a valid image file."
      /\ error (app (handleFileChange (Some []) w))
         = lit "Please select or paste a valid image file."
      /\ imageFile (app (handleFileChange None w)) = imageFile (app w)
      /\ imageFile (app (handleFileChange (Some []) w)) = imageFile (app w)).
Proof.
  repeat split.
Qed.

(* ================================================================== *)
(** ** Error message and result side by side *)
(* ================================================================== *)

(** The handlers that store an error message leave the result alone, and
    the completion of a conversion leaves the error message alone. *)
Lemma setError_keeps_result (m : jsstring) (w : World) :
  latexCode (app (setError m w)) = latexCode (app w).
Proof. reflexivity. Qed.

Lemma remoteSettled_keeps_error (i : nat) (o : RemoteOutcome) (w : World) :
  error (app (remoteSettled i o w)) = error (app w).
Proof.
  unfold remoteSettled.
  destruct (nth_error (pending w) i) as [[f|req]|]; try reflexivity.
  destruct (resumeGetLatex o); reflexivity.
Qed.

(** C5 as stated does not hold.  The image is cleared while its conversion
    is pending, the conversion completes and stores its result, and a
    text file is then dropped on the drop zone: the invalid-input message
    is stored next to the result. *)
Lemma error_and_result_side_by_side :
  ~ (forall w, reachable w ->
               error (app w) = [] \/ latexCode (app w) = []).
Proof.
  intros H.
  pose (es := [Drop [Sample.png]; GenerateClick None; ClearClick;
               ReaderLoad 0 Sample.dataUrl;
               RemoteSettles 0 (Resolved (Some (lit "x^2")));
               Drop [Sample.txt]]).
  destruct (H (run es initialWorld)) as [E | E].
  - exists es. split; reflexivity.
  - discriminate E.
  - discriminate E.
Qed.

(** The same without clearing: a clipboard item that passes the test of
    line 44 but hands over no file, pasted while a result is shown. *)
Lemma error_and_result_after_paste :
  let es := Sample.upToRequest
            ++ [RemoteSettles 0 (Resolved (Some (lit "x^2")));
                Paste (mkClipboardEvent (Some Sample.body)
                         (Some [DataTransferItem.mk (lit "file")
                                                    (lit "image/png") None]))] in
  possible es initialWorld = true
  /\ error (app (run es initialWorld)) = Msg.invalid_input
  /\ latexCode (app (run es initialWorld)) = lit "x^2".
Proof. cbv zeta. repeat split. Qed.

(** *** The restricted sessions keep them apart *)

Lemma tidy_processFile (f : option File.t) (w : World) :
  tidy w = true ->
  match f with
  | Some f' => isImageType (File.type f') = true
  | None => False
  end \/ imageFile (app w) = None ->
  tidy (processFile f w) = true.
Proof.
  intros Ht Hf. unfold processFile.
  destruct f as [f|].
  - destruct (isImageType (File.type f)) eqn:E.
    + open_world w; destruct img; simpl in *; crush_bools.
    + destruct Hf as [Hf | Hf]; [discriminate|].
      open_world w; subst; simpl in *; crush_bools.
  - destruct Hf as [[] | Hf].
    open_world w; subst; simpl in *; crush_bools.
Qed.

Lemma tidy_setIsDragging (b : bool) (w : World) :
  tidy (setIsDragging b w) = tidy w.
Proof. reflexivity. Qed.

Lemma dropZone_no_image (w : World) :
  dropZone (render (app w)) = true -> imageFile (app w) = None.
Proof. simpl. destruct (imageFile (app w)); [discriminate | reflexivity]. Qed.

Lemma tidy_step (e : Event) (w : World) :
  tidy w = true -> enabled e w = true -> calm e w = true ->
  tidy (step e w) = true.
Proof.
  intros Ht He Hc. destruct e; simpl step.
  - (* Paste *)
    destruct (handlePaste_cases event w)
      as [-> | (it & items & Hitems & Hin & Hit & ->)]; [exact Ht|].
    apply tidy_processFile; [exact Ht|]. left.
    simpl in Hc. rewrite Hitems in Hc.
    rewrite forallb_forall in Hc. specialize (Hc it Hin).
    rewrite Hit in Hc. simpl in Hc. unfold yieldsImage in Hc.
    destruct (DataTransferItem.getAsFile it); [exact Hc | discriminate].
  - (* FileChange *)
    apply tidy_processFile; [exact Ht|]. right.
    now apply dropZone_no_image.
  - exact Ht.
  - exact Ht.
  - exact Ht.
  - (* Drop *)
    unfold handleDrop. destruct (0 <? List.length files); [|exact Ht].
    apply tidy_processFile; [exact Ht|]. right.
    now apply dropZone_no_image.
  - (* GenerateClick *)
    unfold handleGenerateClick.
    open_world w; destruct img; simpl in *; try discriminate;
      destruct ld; simpl in *; try discriminate;
      destruct readThrows as [[m|]|]; simpl; crush_bools.
  - (* ClearClick *)
    unfold clearImage, setImageFile.
    open_world w; destruct img; simpl in *; crush_bools.
  - (* ReaderError *)
    unfold readerFailed.
    open_world w; destruct img; destruct i as [|[|i]]; simpl in *;
      try discriminate;
      destruct t; simpl in *; try discriminate; crush_bools.
  - (* ReaderLoad *)
    unfold readerLoaded.
    open_world w; destruct img; destruct i as [|[|i]]; simpl in *;
      try discriminate;
      destruct t; simpl in *; try discriminate; crush_bools.
  - (* RemoteSettles *)
    unfold remoteSettled.
    open_world w; destruct img; destruct i as [|[|i]]; simpl in *;
      try discriminate;
      destruct t; simpl in *; try discriminate;
      destruct (resumeGetLatex o) eqn:Er; simpl; crush_bools.
Qed.

Lemma tidy_run (es : list Event) (w : World) :
  tidy w = true -> orderly es w = true -> tidy (run es w) = true.
Proof.
  revert w. induction es as [|e es IH]; intros w Ht Ho; simpl in *; [exact Ht|].
  apply andb_true_iff in Ho as [Ho Hrest].
  apply andb_true_iff in Ho as [He Hc].
  apply IH; [now apply tidy_step | exact Hrest].
Qed.

Lemma orderly_possible (es : list Event) (w : World) :
  orderly es w = true -> possible es w = true.
Proof.
  revert w. induction es as [|e es IH]; intros w Ho; simpl in *; [reflexivity|].
  apply andb_true_iff in Ho as [Ho Hrest].
  apply andb_true_iff in Ho as [He _].
  rewrite He. simpl. now apply IH.
Qed.

Lemma tidy_one_of_two (w : World) :
  tidy w = true -> error (app w) = [] \/ latexCode (app w) = [].
Proof.
  intros Ht. open_world w.
  - apply andb_true_iff in Ht as [Ht _].
    apply orb_true_iff in Ht as [Ht | Ht];
      apply negb_true_iff, truthy_false in Ht; [now left | now right].
  - repeat (apply andb_true_iff in Ht as [Ht ?]).
    right. now apply truthy_false, negb_true_iff.
Qed.

(** C5, amended. In a session where the image is not cleared while a
    conversion is pending and where a clipboard item that passes the test
    of line 44 hands over an image file, every state has an empty error
    message or an empty result.  Accepting an image, starting a conversion
    and clearing each empty both. *)
Theorem error_or_result_in_restricted_sessions :
  (forall es,
      orderly es initialWorld = true ->
      reachable (run es initialWorld)
      /\ (error (app (run es initialWorld)) = []
          \/ latexCode (app (run es initialWorld)) = []))
  /\ (forall f w,
        isImageType (File.type f) = true ->
        error (app (processFile (Some f) w)) = []
        /\ latexCode (app (processFile (Some f) w)) = [])
  /\ (forall im w,
        imageFile (app w) = Some im ->
        error (app (handleGenerateClick None w)) = []
        /\ latexCode (app (handleGenerateClick None w)) = [])
  /\ (forall w,
        error (app (clearImage w)) = []
        /\ latexCode (app (clearImage w)) = []).
Proof.
  split; [|split; [|split]].
  - intros es Ho. split.
    + exists es. split; [now apply orderly_possible | reflexivity].
    + apply tidy_one_of_two. now apply tidy_run.
  - intros f w Hf. rewrite (processFile_accepts f w Hf). split; reflexivity.
  - intros im w Him. unfold handleGenerateClick. rewrite Him.
    split; reflexivity.
  - intros w. unfold clearImage. split; reflexivity.
Qed.

Lemma error_or_result_in_restricted_sessions_witness :
  let es := Sample.upToRequest
            ++ [RemoteSettles 0 (Resolved (Some (lit "x^2")));
                Paste (mkClipboardEvent (Some Sample.body)
                                        (Some [Sample.pngItem]))] in
  (reachable (run es initialWorld)
   /\ (error (app (run es initialWorld)) = []
       \/ latexCode (app (run es initialWorld)) = []))
  /\ (error (app (processFile (Some Sample.png) initialWorld)) = []
      /\ latexCode (app (processFile (Some Sample.png) initialWorld)) = [])
  /\ (error (app (handleGenerateClick None
                    (run [Drop [Sample.png]] initialWorld))) = []
      /\ latexCode (app (handleGenerateClick None
                           (run [Drop [Sample.png]] initialWorld))) = []).
Proof.
  cbv zeta. split; [|split].
  - apply (proj1 error_or_result_in_restricted_sessions
             (Sample.upToRequest
              ++ [RemoteSettles 0 (Resolved (Some (lit "x^2")));
                  Paste (mkClipboardEvent (Some Sample.body)
                                          (Some [Sample.pngItem]))])).
    reflexivity.
  - apply (proj1 (proj2 error_or_result_in_restricted_sessions)
             Sample.png initialWorld).
    reflexivity.
  - apply (proj1 (proj2 (proj2 error_or_result_in_restricted_sessions))
             (mkImageFile Sample.png 0) (run [Drop [Sample.png]] initialWorld)).
    reflexivity.
Defined.

(* ================================================================== *)
(** ** More on the service *)
(* ================================================================== *)

Lemma trimStart_nil_iff (s : jsstring) :
  trimStart s = [] <-> forallb isWhiteSpace s = true.
Proof.
  induction s as [|c s IH]; simpl; [tauto|].
  destruct (isWhiteSpace c); simpl; [exact IH|].
  split; discriminate.
Qed.

Lemma rev_nil_iff {A} (l : list A) : rev l = [] <-> l = [].
Proof.
  split; intros H; [|now subst].
  apply (f_equal (@rev A)) in H. now rewrite rev_involutive in H.
Qed.

Lemma trim_nil_iff (s : jsstring) :
  trim s = [] <-> forallb isWhiteSpace s = true.
Proof.
  unfold trim, trimEnd. split.
  - intros H. apply rev_nil_iff, trimStart_nil_iff in H.
    rewrite forallb_rev in H. apply trimStart_nil_iff.
    destruct (trimStart s) as [|c t] eqn:E; [reflexivity|].
    simpl in H. rewrite (@trimStart_head s c) in H; [discriminate|].
    now rewrite E.
  - intros H. apply trimStart_nil_iff in H. now rewrite H.
Qed.

Lemma service_messages_lack_the_key_phrase :
  includes Msg.empty_response Msg.api_key_not_valid = false
  /\ includes Msg.type_error_trim Msg.api_key_not_valid = false.
Proof. split; vm_compute; reflexivity. Qed.

(** X1. The invalid-key message comes out exactly when the remote call is
    rejected with an [Error] whose message contains ["API key not valid"];
    a rejection with anything else, a response without text and an empty
    response all give the generic message. *)
Theorem invalid_key_exactly_on_key_rejection
        (remote : ConversionRequest -> RemoteOutcome)
        (base64 : option jsstring) (mime : jsstring) :
  (getLatexFromImage remote base64 mime = Throw (ErrorObj Msg.invalid_api_key)
   <-> exists m,
        remote (buildRequest base64 mime) = Rejected (ErrorObj m)
        /\ includes m (lit "API key not valid") = true)
  /\ (forall t, getLatexFromImage remote base64 mime = Throw t ->
                t <> ErrorObj Msg.invalid_api_key ->
                t = ErrorObj Msg.generic_failure).
Proof.
  unfold getLatexFromImage, resumeGetLatex.
  destruct service_messages_lack_the_key_phrase as [He Ht].
  destruct (remote (buildRequest base64 mime)) as [[resp|]|[m|]];
    unfold tryBlock.
  - destruct (negb (truthy (trim resp))).
    + unfold catchBlock. rewrite He. split.
      * split; [discriminate | intros (m & H & _); discriminate].
      * intros t [= <-] _. reflexivity.
    + split.
      * split; [discriminate | intros (m & H & _); discriminate].
      * discriminate.
  - unfold catchBlock. rewrite Ht. split.
    + split; [discriminate | intros (m & H & _); discriminate].
    + intros t [= <-] _. reflexivity.
  - unfold catchBlock. change (lit "API key not valid") with Msg.api_key_not_valid.
    destruct (includes m Msg.api_key_not_valid) eqn:E; split.
    + split; [intros _; now exists m | reflexivity].
    + intros t [= <-] H. now elim H.
    + split; [discriminate | intros (m' & [= <-] & H); congruence].
    + intros t [= <-] _. reflexivity.
  - split.
    + split; [discriminate | intros (m & H & _); discriminate].
    + intros t [= <-] _. reflexivity.
Qed.

Lemma invalid_key_exactly_on_key_rejection_witness :
  getLatexFromImage
    (fun _ => Rejected (ErrorObj (lit "400: API key not valid. Please pass a valid API key.")))
    None (lit "image/png")
  = Throw (ErrorObj Msg.invalid_api_key)
  /\ catchBlock NonError = ErrorObj Msg.generic_failure.
Proof.
  split.
  - apply (proj1 (invalid_key_exactly_on_key_rejection
             (fun _ => Rejected (ErrorObj (lit "400: API key not valid. Please pass a valid API key.")))
             None (lit "image/png"))).
    eexists. split; reflexivity.
  - apply (proj2 (invalid_key_exactly_on_key_rejection
             (fun _ => Rejected NonError) None (lit "image/png"))).
    + reflexivity.
    + discriminate.
Defined.

(** X2. When the remote call answers with a text, the conversion fails
    (with the generic message) exactly when the text consists of
    whitespace only, the empty text included; otherwise it returns the
    trimmed text. *)
Theorem whitespace_only_response_fails
        (remote : ConversionRequest -> RemoteOutcome)
        (base64 : option jsstring) (mime resp : jsstring) :
  remote (buildRequest base64 mime) = Resolved (Some resp) ->
  getLatexFromImage remote base64 mime
  = if forallb isWhiteSpace resp
    then Throw (ErrorObj Msg.generic_failure)
    else Return (trim resp).
Proof.
  intros H. unfold getLatexFromImage, resumeGetLatex, tryBlock. rewrite H.
  destruct (forallb isWhiteSpace resp) eqn:E.
  - apply trim_nil_iff in E. rewrite E. reflexivity.
  - destruct (truthy (trim resp)) eqn:T; [reflexivity|].
    apply truthy_false, trim_nil_iff in T. congruence.
Qed.

Lemma whitespace_only_response_fails_witness :
  getLatexFromImage (fun _ => Resolved (Some (lit "   ")))
                    None (lit "image/png")
  = Throw (ErrorObj Msg.generic_failure).
Proof.
  apply (whitespace_only_response_fails
           (fun _ => Resolved (Some (lit "   "))) None (lit "image/png")
           (resp := lit "   ")).
  reflexivity.
Defined.

(* ================================================================== *)
(** ** Object URLs: created in [processFile], revoked by the effect *)
(* ================================================================== *)

Lemma urlsTidy_same (w w' : World) :
  imageFile (app w') = imageFile (app w) ->
  liveUrls w' = liveUrls w ->
  nextUrl w' = nextUrl w ->
  urlsTidy w -> urlsTidy w'.
Proof.
  unfold urlsTidy, urlsOfImage. intros -> -> ->. trivial.
Qed.

Lemma remove_only (u : ObjectURL) : remove Nat.eq_dec u [u] = [].
Proof. simpl. destruct (Nat.eq_dec u u); [reflexivity | congruence]. Qed.

Lemma remove_older (u n : ObjectURL) :
  u < n -> remove Nat.eq_dec u [n; u] = [n].
Proof.
  intros H. simpl.
  destruct (Nat.eq_dec u n); [lia|].
  destruct (Nat.eq_dec u u); [reflexivity | congruence].
Qed.

Lemma urlsTidy_processFile (f : option File.t) (w : World) :
  urlsTidy w -> urlsTidy (processFile f w).
Proof.
  intros [Hl Hn]. unfold processFile.
  destruct f as [f|]; [|now split].
  destruct (isImageType (File.type f)); [|now split].
  unfold urlsTidy, urlsOfImage in *.
  destruct w as [[img lc ld er dr] nu lv pd rl cl uh]. simpl in *.
  destruct img as [im|]; subst lv.
  - specialize (Hn im eq_refl).
    change (remove Nat.eq_dec (preview im) [nu; preview im] = [nu]
            /\ (forall im', Some (mkImageFile f nu) = Some im' ->
                            preview im' < S nu)).
    rewrite (remove_older Hn).
    split; [reflexivity|]. intros im' [= <-]. simpl. lia.
  - split; [reflexivity|]. intros im' [= <-]. simpl. lia.
Qed.

Lemma urlsTidy_clearImage (w : World) :
  urlsTidy w -> urlsTidy (clearImage w).
Proof.
  intros [Hl Hn]. unfold clearImage, setImageFile, urlsTidy, urlsOfImage in *.
  destruct w as [[img lc ld er dr] nu lv pd rl cl uh]. simpl in *.
  destruct img as [im|]; subst lv.
  - change (remove Nat.eq_dec (preview im) [preview im] = []
            /\ (forall im', @None ImageFile = Some im' -> preview im' < nu)).
    rewrite remove_only. split; [reflexivity | discriminate].
  - split; [reflexivity | discriminate].
Qed.

Lemma urlsTidy_step (e : Event) (w : World) :
  urlsTidy w -> urlsTidy (step e w).
Proof.
  intros H. destruct e; simpl.
  - destruct (handlePaste_cases event w) as [-> | (it & _ & _ & _ & _ & ->)];
      [exact H | now apply urlsTidy_processFile].
  - now apply urlsTidy_processFile.
  - exact H.
  - exact H.
  - exact H.
  - unfold handleDrop. destruct (0 <? List.length files); [|exact H].
    now apply urlsTidy_processFile.
  - apply (@urlsTidy_same w); trivial; unfold handleGenerateClick;
      destruct (imageFile (app w)) eqn:E; try destruct readThrows;
      simpl; now rewrite ?E.
  - now apply urlsTidy_clearImage.
  - apply (@urlsTidy_same w); trivial; unfold readerFailed;
      destruct (nth_error (pending w) i) as [[f|req]|]; reflexivity.
  - apply (@urlsTidy_same w); trivial; unfold readerLoaded;
      destruct (nth_error (pending w) i) as [[f|req]|]; reflexivity.
  - apply (@urlsTidy_same w); trivial; unfold remoteSettled;
      destruct (nth_error (pending w) i) as [[f|req]|]; try reflexivity;
      destruct (resumeGetLatex o); reflexivity.
Qed.

Lemma urlsTidy_run (es : list Event) (w : World) :
  urlsTidy w -> urlsTidy (run es w).
Proof.
  revert w. induction es as [|e es IH]; intros w H; simpl; [exact H|].
  apply IH. now apply urlsTidy_step.
Qed.

(** X3. Whatever events occur, in whatever order, the object URLs that
    are live are exactly the preview of the image on display: one when an
    image is selected, none otherwise.  A replaced or cleared preview is
    revoked, the preview on display never is, and every new preview is a
    handle that was not handed out before. *)
Theorem object_urls_follow_the_selection (es : list Event) :
  let w := run es initialWorld in
  liveUrls w = match imageFile (app w) with
               | Some im => [preview im]
               | None => []
               end
  /\ (forall u, previewShown (render (app w)) = Some u -> In u (liveUrls w))
  /\ (forall f, isImageType (File.type f) = true ->
        option_map preview (imageFile (app (processFile (Some f) w)))
        = Some (nextUrl w)
        /\ ~ In (nextUrl w) (liveUrls w)).
Proof.
  cbv zeta.
  destruct (urlsTidy_run es (w := initialWorld)) as [Hl Hn].
  { split; [reflexivity | discriminate]. }
  unfold urlsOfImage in Hl. repeat split.
  - exact Hl.
  - simpl. rewrite Hl.
    destruct (imageFile (app (run es initialWorld))) as [im|]; simpl;
      [|discriminate].
    intros u [= <-]. now left.
  - now rewrite (processFile_accepts f _ H).
  - rewrite Hl.
    destruct (imageFile (app (run es initialWorld))) as [im|] eqn:E; simpl;
      [|tauto].
    intros [Hu | []]. specialize (Hn im eq_refl). lia.
Qed.

Lemma object_urls_follow_the_selection_witness :
  let w := run [Drop [Sample.png]; Paste (mkClipboardEvent (Some Sample.body)
                                           (Some [Sample.pngItem]))]
               initialWorld in
  option_map preview (imageFile (app (processFile (Some Sample.png) w)))
  = Some (nextUrl w)
  /\ In 1 (liveUrls w).
Proof.
  cbv zeta. split.
  - apply (proj2 (proj2 (object_urls_follow_the_selection
             [Drop [Sample.png]; Paste (mkClipboardEvent (Some Sample.body)
                                          (Some [Sample.pngItem]))]))
             Sample.png).
    reflexivity.
  - apply (proj1 (proj2 (object_urls_follow_the_selection
             [Drop [Sample.png]; Paste (mkClipboardEvent (Some Sample.body)
                                          (Some [Sample.pngItem]))]))).
    reflexivity.
Defined.

(* ================================================================== *)
(** ** One conversion at a time *)
(* ================================================================== *)

Lemma singleFlight_processFile (f : option File.t) (w : World) :
  singleFlight (processFile f w) = singleFlight w.
Proof.
  unfold processFile. destruct f as [f|]; [|reflexivity].
  destruct (isImageType (File.type f)); [|reflexivity].
  unfold singleFlight. simpl. destruct (imageFile (app w)); reflexivity.
Qed.

Lemma singleFlight_step (e : Event) (w : World) :
  singleFlight w = true -> enabled e w = true ->
  singleFlight (step e w) = true.
Proof.
  intros Hs He. destruct e; simpl step.
  - destruct (handlePaste_cases event w) as [-> | (it & _ & _ & _ & _ & ->)];
      [exact Hs | now rewrite singleFlight_processFile].
  - unfold handleFileChange. now rewrite singleFlight_processFile.
  - exact Hs.
  - exact Hs.
  - exact Hs.
  - unfold handleDrop, handleFileChange.
    destruct (0 <? List.length files); [|exact Hs].
    now rewrite singleFlight_processFile.
  - unfold handleGenerateClick.
    open_flight w; destruct img; simpl in *; try discriminate;
      destruct ld; simpl in *; try discriminate;
      destruct readThrows; reflexivity.
  - unfold clearImage, setImageFile.
    open_flight w; destruct img; simpl in *; trivial.
  - unfold readerFailed.
    open_flight w; destruct i as [|[|i]]; simpl in *; try discriminate;
      destruct t; simpl in *; try discriminate; reflexivity.
  - unfold readerLoaded.
    open_flight w; destruct i as [|[|i]]; simpl in *; try discriminate;
      destruct t; simpl in *; try discriminate; trivial.
  - unfold remoteSettled.
    open_flight w; destruct i as [|[|i]]; simpl in *; try discriminate;
      destruct t; simpl in *; try discriminate;
      destruct (resumeGetLatex o); reflexivity.
Qed.

Lemma singleFlight_run (es : list Event) (w : World) :
  singleFlight w = true -> possible es w = true ->
  singleFlight (run es w) = true.
Proof.
  revert w. induction es as [|e es IH]; intros w Hs Hp; simpl in *; [exact Hs|].
  apply andb_true_iff in Hp as [He Hp].
  apply IH; [now apply singleFlight_step | exact Hp].
Qed.

Lemma singleFlight_facts (w : World) :
  singleFlight w = true ->
  List.length (pending w) <= 1
  /\ (pending w <> [] ->
      isLoading (app w) = true
      /\ forall readThrows, enabled (GenerateClick readThrows) w = false).
Proof.
  intros Hs. open_flight w.
  - split; [lia | congruence].
  - split; [lia|]. intros _. subst ld. split; [reflexivity|].
    intros _. now destruct img.
Qed.

(** X4. In a session driven through the rendered controls at most one
    read or remote call is pending at any time; while one is pending the
    loading flag is set and the generate button cannot be clicked.  This
    holds even when the image is cleared or replaced in the meantime. *)
Theorem one_conversion_at_a_time (es : list Event) :
  possible es initialWorld = true ->
  let w := run es initialWorld in
  List.length (pending w) <= 1
  /\ (pending w <> [] ->
      isLoading (app w) = true
      /\ forall readThrows, enabled (GenerateClick readThrows) w = false).
Proof.
  intros Hp. apply singleFlight_facts.
  now apply singleFlight_run.
Qed.

Lemma one_conversion_at_a_time_witness :
  let es := [Drop [Sample.png]; GenerateClick None; ClearClick;
             Drop [Sample.png]] in
  List.length (pending (run es initialWorld)) <= 1
  /\ (pending (run es initialWorld) <> [] ->
      isLoading (app (run es initialWorld)) = true
      /\ forall readThrows,
           enabled (GenerateClick readThrows) (run es initialWorld) = false).
Proof.
  cbv zeta.
  apply (one_conversion_at_a_time
           [Drop [Sample.png]; GenerateClick None; ClearClick;
            Drop [Sample.png]]).
  reflexivity.
Defined.

(* ================================================================== *)
(** ** Requests and clicks *)
(* ================================================================== *)

Lemma readingCount_replaceAt (i : nat) (p : list Task) (f : File.t)
      (req : ConversionRequest) :
  nth_error p i = Some (Reading f) ->
  S (readingCount (replaceAt i (Calling req) p)) = readingCount p.
Proof.
  unfold readingCount. revert i.
  induction p as [|t p IH]; intros [|i] H; simpl in *; try discriminate.
  - injection H as ->. reflexivity.
  - destruct (isReading t); simpl; rewrite <- (IH i H); reflexivity.
Qed.

Lemma readingCount_removeAt (i : nat) (p : list Task) :
  readingCount (removeAt i p) <= readingCount p.
Proof.
  unfold readingCount. revert i.
  induction p as [|t p IH]; intros [|i]; simpl; try lia.
  - destruct (isReading t); simpl; lia.
  - specialize (IH i). destruct (isReading t); simpl; lia.
Qed.

Lemma readingCount_snoc (p : list Task) (f : File.t) :
  readingCount (p ++ [Reading f]) = S (readingCount p).
Proof.
  unfold readingCount. rewrite filter_app, length_app. simpl. lia.
Qed.

Lemma clearImage_frame (w : World) :
  pending (clearImage w) = pending w
  /\ remoteLog (clearImage w) = remoteLog w.
Proof.
  unfold clearImage, setImageFile. destruct (imageFile (app w)); now split.
Qed.

Lemma owed_step (e : Event) (w : World) :
  owed (step e w) <= owed w + countClicks [e].
Proof.
  unfold owed. destruct e; simpl step; simpl countClicks.
  - destruct (handlePaste_cases event w) as [-> | (it & _ & _ & _ & _ & ->)];
      [lia|].
    destruct (processFile_frame (DataTransferItem.getAsFile it) w)
      as (-> & -> & _). lia.
  - unfold handleFileChange.
    match goal with
    | |- context [processFile ?x w] =>
        destruct (processFile_frame x w) as (-> & -> & _)
    end. lia.
  - simpl. lia.
  - simpl. lia.
  - lia.
  - unfold handleDrop, handleFileChange.
    destruct (0 <? List.length files); [|simpl; lia].
    match goal with
    | |- context [processFile ?x ?v] =>
        destruct (processFile_frame x v) as (-> & -> & _)
    end. simpl. lia.
  - unfold handleGenerateClick.
    destruct (imageFile (app w)) as [im|]; [|simpl; lia].
    destruct readThrows; simpl; [lia|].
    rewrite readingCount_snoc. lia.
  - destruct (clearImage_frame w) as [-> ->]. lia.
  - unfold readerFailed.
    destruct (nth_error (pending w) i) as [[f|req]|]; simpl; try lia.
    pose proof (readingCount_removeAt i (pending w)). lia.
  - unfold readerLoaded.
    destruct (nth_error (pending w) i) as [[f|req]|] eqn:E; simpl; try lia.
    match goal with
    | |- context [replaceAt i (Calling ?r) _] =>
        rewrite <- (@readingCount_replaceAt i (pending w) f r E)
    end. lia.
  - unfold remoteSettled.
    destruct (nth_error (pending w) i) as [[f|req]|]; simpl; try lia.
    pose proof (readingCount_removeAt i (pending w)).
    destruct (resumeGetLatex o); simpl; lia.
Qed.

Lemma countClicks_cons (e : Event) (es : list Event) :
  countClicks (e :: es) = countClicks [e] + countClicks es.
Proof. destruct e; simpl; lia. Qed.

Lemma owed_run (es : list Event) (w : World) :
  owed (run es w) <= owed w + countClicks es.
Proof.
  revert w. induction es as [|e es IH]; intros w; [simpl; lia|].
  rewrite countClicks_cons. simpl run.
  pose proof (IH (step e w)). pose proof (owed_step e w). lia.
Qed.

(** X5. Whatever events occur, the number of requests sent to the remote
    service never exceeds the number of clicks on the generate button:
    selecting, pasting, dropping and clearing send nothing, and one click
    leads to at most one request. *)
Theorem no_more_requests_than_clicks (es : list Event) :
  List.length (remoteLog (run es initialWorld))
  + readingCount (pending (run es initialWorld))
  <= countClicks es.
Proof.
  pose proof (owed_run es initialWorld) as H. unfold owed in H.
  simpl in H. exact H.
Qed.

(* ================================================================== *)
(** ** Which error messages can be stored *)
(* ================================================================== *)

Lemma isLocalMessage_cases (m : jsstring) :
  isLocalMessage m = true ->
  m = [] \/ m = Msg.invalid_input \/ m = Msg.read_failure.
Proof.
  unfold isLocalMessage. rewrite !orb_true_iff, !str_eqb_eq. tauto.
Qed.

Lemma processFile_error_local (f : option File.t) (w : World) :
  isLocalMessage (error (app (processFile f w))) = true.
Proof.
  unfold processFile. destruct f as [f|]; [|reflexivity].
  destruct (isImageType (File.type f)); [|reflexivity].
  simpl. destruct (imageFile (app w)); reflexivity.
Qed.

Lemma local_step (e : Event) (w : World) :
  isLocalMessage (error (app w)) = true ->
  enabled e w = true -> noSyncThrow [e] = true ->
  isLocalMessage (error (app (step e w))) = true.
Proof.
  intros Hl He Hn. destruct e; simpl step.
  - destruct (handlePaste_cases event w) as [-> | (it & _ & _ & _ & _ & ->)];
      [exact Hl | apply processFile_error_local].
  - apply processFile_error_local.
  - exact Hl.
  - exact Hl.
  - exact Hl.
  - unfold handleDrop. destruct (0 <? List.length files); [|exact Hl].
    apply processFile_error_local.
  - unfold handleGenerateClick. simpl in He.
    destruct (imageFile (app w)); [|discriminate].
    destruct readThrows; [discriminate | reflexivity].
  - reflexivity.
  - unfold readerFailed.
    destruct (nth_error (pending w) i) as [[f|req]|]; trivial.
  - unfold readerLoaded.
    destruct (nth_error (pending w) i) as [[f|req]|]; trivial.
  - unfold remoteSettled.
    destruct (nth_error (pending w) i) as [[f|req]|]; trivial.
    destruct (resumeGetLatex o); exact Hl.
Qed.

Lemma local_run (es : list Event) (w : World) :
  isLocalMessage (error (app w)) = true ->
  possible es w = true -> noSyncThrow es = true ->
  isLocalMessage (error (app (run es w))) = true.
Proof.
  revert w. induction es as [|e es IH]; intros w Hl Hp Hn; [exact Hl|].
  simpl in Hp. apply andb_true_iff in Hp as [He Hp].
  unfold noSyncThrow in Hn. simpl in Hn.
  apply andb_true_iff in Hn as [Hn1 Hn2].
  simpl run. apply IH; trivial.
  apply local_step; trivial.
  unfold noSyncThrow. simpl. now rewrite Hn1.
Qed.

(** X6. In a session driven through the rendered controls (in which
    [readAsDataURL] does not throw) the error message is always empty,
    the invalid-input message or the read-failure message.  The messages
    thrown by [getLatexFromImage] and ["Please upload an image first."]
    are never stored. *)
Theorem only_local_messages_are_stored (es : list Event) :
  possible es initialWorld = true ->
  noSyncThrow es = true ->
  let m := error (app (run es initialWorld)) in
  (m = [] \/ m = Msg.invalid_input \/ m = Msg.read_failure)
  /\ m <> Msg.no_image
  /\ m <> Msg.generic_failure
  /\ m <> Msg.invalid_api_key
  /\ m <> Msg.empty_response.
Proof.
  intros Hp Hn m.
  assert (H : m = [] \/ m = Msg.invalid_input \/ m = Msg.read_failure).
  { apply isLocalMessage_cases. subst m. now apply local_run. }
  split; [exact H|].
  repeat split; intros E; rewrite E in H;
    destruct H as [H | [H | H]]; discriminate H.
Qed.

Lemma only_local_messages_are_stored_witness :
  error (app (run (Sample.upToRequest
                   ++ [RemoteSettles 0 (Rejected (ErrorObj (lit "API key not valid")))])
                  initialWorld))
  <> Msg.invalid_api_key.
Proof.
  apply (only_local_messages_are_stored
           (Sample.upToRequest
            ++ [RemoteSettles 0 (Rejected (ErrorObj (lit "API key not valid")))])).
  - reflexivity.
  - reflexivity.
Defined.

(* ================================================================== *)
(** ** After a failed remote call *)
(* ================================================================== *)

Lemma stuck_step (e : Event) (w : World) :
  isLoading (app w) = true -> pending w = [] -> enabled e w = true ->
  isLoading (app (step e w)) = true /\ pending (step e w) = [].
Proof.
  intros Hl Hp He.
  destruct w as [[img lc ld er dr] nu lv pd rl cl uh]. simpl in Hl, Hp.
  subst ld pd.
  destruct e; simpl step.
  - destruct (handlePaste_cases event
                (mkWorld (mkApp img lc true er dr) nu lv [] rl cl uh))
      as [-> | (it & _ & _ & _ & _ & ->)]; [now split|].
    unfold processFile.
    destruct (DataTransferItem.getAsFile it) as [f|]; [|now split].
    destruct (isImageType (File.type f)); [|now split].
    destruct img; now split.
  - unfold handleFileChange, processFile.
    destruct (match files with Some l => hd_error l | None => None end)
      as [f|]; [|now split].
    destruct (isImageType (File.type f)); [|now split].
    destruct img; now split.
  - now split.
  - now split.
  - now split.
  - unfold handleDrop, handleFileChange, processFile.
    destruct (0 <? List.length files); [|now split].
    destruct (hd_error files) as [f|]; [|now split].
    destruct (isImageType (File.type f)); [|now split].
    destruct img; now split.
  - simpl in He. destruct img; discriminate.
  - unfold clearImage, setImageFile. destruct img; now split.
  - simpl in He. destruct i; discriminate.
  - simpl in He. destruct i; discriminate.
  - simpl in He. destruct i; discriminate.
Qed.

Lemma stuck_run (es : list Event) (w : World) :
  isLoading (app w) = true -> pending w = [] -> possible es w = true ->
  isLoading (app (run es w)) = true /\ pending (run es w) = [].
Proof.
  revert w. induction es as [|e es IH]; intros w Hl Hp Hq; [now split|].
  simpl in Hq. apply andb_true_iff in Hq as [He Hq].
  destruct (stuck_step e w Hl Hp He) as [Hl' Hp'].
  simpl run. now apply IH.
Qed.

(** X7. When the one pending remote call fails, nothing the user can do
    afterwards through the rendered controls clears the loading flag: the
    generate button stays disabled for the rest of the session, and the
    failure itself leaves the error message as it was. *)
Theorem loading_flag_stays_after_remote_failure
        (w : World) (req : ConversionRequest) (o : RemoteOutcome)
        (e : Thrown) (es : list Event) :
  pending w = [Calling req] ->
  isLoading (app w) = true ->
  resumeGetLatex o = Throw e ->
  possible es (step (RemoteSettles 0 o) w) = true ->
  let w' := run es (step (RemoteSettles 0 o) w) in
  isLoading (app w') = true
  /\ (forall readThrows, enabled (GenerateClick readThrows) w' = false)
  /\ error (app (step (RemoteSettles 0 o) w)) = error (app w).
Proof.
  intros Hp Hl Ho Hq w'.
  assert (Hs : isLoading (app (step (RemoteSettles 0 o) w)) = true
               /\ pending (step (RemoteSettles 0 o) w) = []).
  { simpl. unfold remoteSettled. rewrite Hp. simpl. rewrite Ho. simpl.
    now split. }
  destruct Hs as [Hl1 Hp1].
  destruct (stuck_run es _ Hl1 Hp1 Hq) as [Hl2 _].
  repeat split.
  - exact Hl2.
  - intros rt. simpl. subst w'.
    destruct (imageFile (app (run es (step (RemoteSettles 0 o) w))));
      [|reflexivity].
    now rewrite Hl2.
  - apply remoteSettled_keeps_error.
Qed.

Lemma loading_flag_stays_after_remote_failure_witness :
  let w := run Sample.upToRequest initialWorld in
  let o := Rejected (ErrorObj (lit "fetch failed")) in
  let es := [ClearClick; Drop [Sample.png]] in
  isLoading (app (run es (step (RemoteSettles 0 o) w))) = true.
Proof.
  cbv zeta.
  apply (@loading_flag_stays_after_remote_failure
           (run Sample.upToRequest initialWorld)
           (buildRequest (Some (lit "iVBORw0KGgo=")) (lit "image/png"))
           (Rejected (ErrorObj (lit "fetch failed")))
           (ErrorObj Msg.generic_failure)
           [ClearClick; Drop [Sample.png]]);
    reflexivity.
Defined.

(* ================================================================== *)
(** ** Where the result comes from *)
(* ================================================================== *)

Lemma processFile_latexCode (f : option File.t) (w : World) :
  latexCode (app (processFile f w)) = latexCode (app w)
  \/ latexCode (app (processFile f w)) = [].
Proof.
  unfold processFile. destruct f as [f|]; [|now left].
  destruct (isImageType (File.type f)); [|now left].
  right. simpl. destruct (imageFile (app w)); reflexivity.
Qed.

Lemma latexCode_step (e : Event) (w : World) :
  latexCode (app (step e w)) = latexCode (app w)
  \/ latexCode (app (step e w)) = []
  \/ exists i resp,
       e = RemoteSettles i (Resolved (Some resp))
       /\ latexCode (app (step e w)) = trim resp
       /\ trim resp <> [].
Proof.
  destruct e; simpl step.
  - destruct (handlePaste_cases event w) as [-> | (it & _ & _ & _ & _ & ->)];
      [now left|].
    destruct (processFile_latexCode (DataTransferItem.getAsFile it) w); tauto.
  - unfold handleFileChange.
    match goal with
    | |- context [processFile ?x w] => destruct (processFile_latexCode x w)
    end; tauto.
  - now left.
  - now left.
  - now left.
  - unfold handleDrop, handleFileChange.
    destruct (0 <? List.length files); [|now left].
    match goal with
    | |- context [processFile ?x ?v] => destruct (processFile_latexCode x v)
    end; tauto.
  - unfold handleGenerateClick.
    destruct (imageFile (app w)); [|now left].
    right. left. destruct readThrows; reflexivity.
  - right. left. reflexivity.
  - left. unfold readerFailed.
    destruct (nth_error (pending w) i) as [[f|req]|]; reflexivity.
  - left. unfold readerLoaded.
    destruct (nth_error (pending w) i) as [[f|req]|]; reflexivity.
  - unfold remoteSettled.
    destruct (nth_error (pending w) i) as [[f|req]|]; try (now left).
    destruct (resumeGetLatex o) as [t|err] eqn:E; [|now left].
    destruct (resumeGetLatex_return _ E) as (resp & -> & -> & Hne).
    right. right. exists i, resp. repeat split; trivial.
Qed.

Lemma latexCode_run (es : list Event) (w : World) :
  latexCode (app (run es w)) = latexCode (app w)
  \/ latexCode (app (run es w)) = []
  \/ exists i resp,
       In (RemoteSettles i (Resolved (Some resp))) es
       /\ latexCode (app (run es w)) = trim resp
       /\ trim resp <> [].
Proof.
  revert w. induction es as [|e es IH]; intros w; [now left|].
  simpl run.
  destruct (IH (step e w)) as [H | [H | (i & resp & Hin & H & Hne)]].
  - rewrite H.
    destruct (latexCode_step e w) as [H' | [H' | (i & resp & -> & H' & Hne)]].
    + now left.
    + now (right; left).
    + right. right. exists i, resp. repeat split; trivial. now left.
  - right. now left.
  - right. right. exists i, resp. repeat split; trivial. now right.
Qed.

(** X8. Whatever events occur, the result text is either empty or the
    trimmed, non-empty text of a response that the remote service gave in
    this session; in particular it never starts or ends with whitespace. *)
Theorem result_is_a_trimmed_response (es : list Event) :
  let l := latexCode (app (run es initialWorld)) in
  l = []
  \/ (exists i resp,
         In (RemoteSettles i (Resolved (Some resp))) es
         /\ l = trim resp /\ l <> []
         /\ whitespaceTrimmed resp l).
Proof.
  cbv zeta.
  destruct (latexCode_run es initialWorld)
    as [H | [H | (i & resp & Hin & H & Hne)]].
  - left. exact H.
  - left. exact H.
  - right. exists i, resp. rewrite H. repeat split; trivial.
    apply trim_whitespaceTrimmed.
Qed.

(* ================================================================== *)
(** ** A failed read *)
(* ================================================================== *)

Lemma singleFlight_reading (w : World) (i : nat) :
  singleFlight w = true -> enabled (ReaderError i) w = true ->
  i = 0 /\ exists f, pending w = [Reading f].
Proof.
  intros Hs He. open_flight w; destruct i as [|[|i]]; simpl in *;
    try discriminate.
  destruct t as [f|req]; [|discriminate]. split; [reflexivity|]. now exists f.
Qed.

(** X9. In a session driven through the rendered controls, a failed read
    stores ["Failed to read the image file."], clears the loading flag,
    sends no request and leaves selection and result as they were.
    Nothing is pending afterwards, so with an image still selected the
    generate button can be clicked again, and the click starts a read of
    the selected file. *)
Theorem read_failure_is_reported_and_retryable (es : list Event) (i : nat) :
  possible es initialWorld = true ->
  enabled (ReaderError i) (run es initialWorld) = true ->
  let w := run es initialWorld in
  let w' := step (ReaderError i) w in
  error (app w') = lit "Failed to read the image file."
  /\ isLoading (app w') = false
  /\ pending w' = []
  /\ remoteLog w' = remoteLog w
  /\ imageFile (app w') = imageFile (app w)
  /\ latexCode (app w') = latexCode (app w)
  /\ (forall im, imageFile (app w) = Some im ->
        enabled (GenerateClick None) w' = true
        /\ pending (step (GenerateClick None) w') = [Reading (file im)]).
Proof.
  intros Hp He. cbv zeta.
  assert (Hs : singleFlight (run es initialWorld) = true)
    by (now apply singleFlight_run).
  destruct (singleFlight_reading _ i Hs He) as [-> [f Hf]].
  destruct (run es initialWorld) as [[img lc ld er dr] nu lv pd rl cl uh].
  simpl in Hf. subst pd. simpl. repeat split.
  - now subst img.
  - now subst img.
Qed.

Lemma read_failure_is_reported_and_retryable_witness :
  let es := [Drop [Sample.png]; GenerateClick None] in
  error (app (step (ReaderError 0) (run es initialWorld)))
  = lit "Failed to read the image file."
  /\ enabled (GenerateClick None) (step (ReaderError 0) (run es initialWorld))
     = true.
Proof.
  cbv zeta.
  destruct (read_failure_is_reported_and_retryable
              [Drop [Sample.png]; GenerateClick None] 0 eq_refl eq_refl)
    as (He & _ & _ & _ & _ & _ & Hr).
  split; [exact He|].
  exact (proj1 (Hr (mkImageFile Sample.png 0) eq_refl)).
Defined.

(* ================================================================== *)
(** ** From the data URL to the request, and a whole conversion *)
(* ================================================================== *)

Lemma split_from_no_sep (sep : code_unit) (acc s : jsstring) :
  ~ In sep s -> split_from sep acc s = [rev acc ++ s].
Proof.
  revert acc. induction s as [|c s IH]; intros acc H; simpl.
  - now rewrite app_nil_r.
  - destruct (N.eqb c sep) eqn:E.
    + apply N.eqb_eq in E. elim H. now left.
    + rewrite IH; [|intros Hin; apply H; now right].
      simpl. now rewrite <- app_assoc.
Qed.

Lemma split_from_first (sep : code_unit) (acc before rest : jsstring) :
  ~ In sep before ->
  split_from sep acc (before ++ sep :: rest)
  = (rev acc ++ before) :: split_from sep [] rest.
Proof.
  revert acc. induction before as [|c before IH]; intros acc H; simpl.
  - rewrite N.eqb_refl. now rewrite app_nil_r.
  - destruct (N.eqb c sep) eqn:E.
    + apply N.eqb_eq in E. elim H. now left.
    + rewrite IH; [|intros Hin; apply H; now right].
      simpl. now rewrite <- app_assoc.
Qed.

Lemma payload_of_data_url (header payload : jsstring) :
  ~ In comma header -> ~ In comma payload ->
  nth_error (split comma (header ++ comma :: payload)) 1 = Some payload.
Proof.
  intros Hh Hp. unfold split.
  rewrite (@split_from_first comma [] header payload Hh),
    (@split_from_no_sep comma [] payload Hp).
  reflexivity.
Qed.

Lemma no_payload_without_comma (result : jsstring) :
  ~ In comma result -> nth_error (split comma result) 1 = None.
Proof.
  intros H. unfold split. now rewrite (@split_from_no_sep comma [] result H).
Qed.

Lemma readerLoaded_reading (i : nat) (result : jsstring) (w : World)
      (f : File.t) :
  nth_error (pending w) i = Some (Reading f) ->
  readerLoaded i result w
  = let req := buildRequest (nth_error (split comma result) 1) (File.type f) in
    sendRequest req (setPending (replaceAt i (Calling req) (pending w)) w).
Proof. intros H. unfold readerLoaded. now rewrite H. Qed.

(** X10. When a read completes, the request that goes out carries the
    type of the file that was being read and, for a data URL with one
    comma, the text after the comma.  A result without a comma still
    sends a request, with [undefined] as data. *)
Theorem request_carries_type_and_payload
        (w : World) (i : nat) (f : File.t) :
  nth_error (pending w) i = Some (Reading f) ->
  (forall header payload,
      ~ In comma header -> ~ In comma payload ->
      remoteLog (readerLoaded i (header ++ comma :: payload) w)
      = buildRequest (Some payload) (File.type f) :: remoteLog w)
  /\ (forall result,
        ~ In comma result ->
        remoteLog (readerLoaded i result w)
        = buildRequest None (File.type f) :: remoteLog w)
  /\ (forall result,
        app (readerLoaded i result w) = app w
        /\ List.length (pending (readerLoaded i result w))
           = List.length (pending w)).
Proof.
  intros H. repeat split.
  - intros header payload Hh Hp. rewrite (@readerLoaded_reading i _ w f H).
    now rewrite (@payload_of_data_url header payload Hh Hp).
  - intros result Hr. rewrite (@readerLoaded_reading i _ w f H).
    now rewrite (@no_payload_without_comma result Hr).
  - now rewrite (@readerLoaded_reading i _ w f H).
  - rewrite (@readerLoaded_reading i _ w f H). simpl. clear H. revert i.
    induction (pending w) as [|t p IH]; intros [|i]; simpl; trivial.
    now rewrite IH.
Qed.

Lemma request_carries_type_and_payload_witness :
  let w := run [Drop [Sample.png]; GenerateClick None] initialWorld in
  remoteLog (readerLoaded 0 (lit "data:image/png;base64" ++ comma
                                 :: lit "iVBORw0KGgo=") w)
  = [buildRequest (Some (lit "iVBORw0KGgo=")) (lit "image/png")]
  /\ remoteLog (readerLoaded 0 (lit "data:") w)
     = [buildRequest None (lit "image/png")].
Proof.
  cbv zeta. split.
  - apply (proj1 (@request_carries_type_and_payload
             (run [Drop [Sample.png]; GenerateClick None] initialWorld)
             0 Sample.png eq_refl)
             (lit "data:image/png;base64") (lit "iVBORw0KGgo=")).
    + vm_compute. intuition discriminate.
    + vm_compute. intuition discriminate.
  - apply (proj1 (proj2 (@request_carries_type_and_payload
             (run [Drop [Sample.png]; GenerateClick None] initialWorld)
             0 Sample.png eq_refl)) (lit "data:")).
    vm_compute. intuition discriminate.
Defined.

(** X11. A whole conversion.  With an image selected and nothing pending,
    a click on generate, a read that yields a data URL with one comma, and
    an answer that is not all whitespace leave the trimmed answer as the
    result, no error message, the loading flag cleared and nothing
    pending; exactly one request was sent, with the payload of the data
    URL and the type of the selected file. *)
Theorem conversion_succeeds
        (w : World) (im : ImageFile) (header payload resp : jsstring) :
  imageFile (app w) = Some im ->
  pending w = [] ->
  ~ In comma header -> ~ In comma payload ->
  forallb isWhiteSpace resp = false ->
  let es := [GenerateClick None;
             ReaderLoad 0 (header ++ comma :: payload);
             RemoteSettles 0 (Resolved (Some resp))] in
  latexCode (app (run es w)) = trim resp
  /\ trim resp <> []
  /\ error (app (run es w)) = []
  /\ isLoading (app (run es w)) = false
  /\ pending (run es w) = []
  /\ imageFile (app (run es w)) = Some im
  /\ remoteLog (run es w)
     = buildRequest (Some payload) (File.type (file im)) :: remoteLog w
  /\ unhandled (run es w) = unhandled w.
Proof.
  intros Him Hp Hh Hpl Hr.
  assert (Hne : trim resp <> []).
  { intros E. apply trim_nil_iff in E. congruence. }
  assert (Ht : resumeGetLatex (Resolved (Some resp)) = Return (trim resp)).
  { unfold resumeGetLatex, tryBlock.
    destruct (truthy (trim resp)) eqn:T; [reflexivity|].
    now apply truthy_false in T. }
  assert (Hc : caught (Resolved (Some resp)) = []).
  { unfold caught, tryBlock.
    destruct (truthy (trim resp)) eqn:T; [reflexivity|].
    now apply truthy_false in T. }
  destruct w as [[img lc ld er dr] nu lv pd rl cl uh]. simpl in Him, Hp.
  subst img pd. cbv zeta.
  unfold run, step, handleGenerateClick. cbv beta iota zeta.
  cbn [app imageFile].
  erewrite (@readerLoaded_reading 0 _ _ (file im)); [|reflexivity].
  cbv zeta. rewrite (@payload_of_data_url header payload Hh Hpl).
  unfold remoteSettled. simpl. rewrite Ht, Hc. simpl.
  repeat split; trivial.
Qed.

Lemma conversion_succeeds_witness :
  latexCode (app (run [GenerateClick None;
                       ReaderLoad 0 (lit "data:image/png;base64" ++ comma
                                         :: lit "iVBORw0KGgo=");
                       RemoteSettles 0 (Resolved (Some (lit " \frac{1}{2} ")))]
                      (run [Drop [Sample.png]] initialWorld)))
  = lit "\frac{1}{2}".
Proof.
  apply (@conversion_succeeds (run [Drop [Sample.png]] initialWorld)
           (mkImageFile Sample.png 0)
           (lit "data:image/png;base64") (lit "iVBORw0KGgo=")
           (lit " \frac{1}{2} ")); try reflexivity.
  - vm_compute. intuition discriminate.
  - vm_compute. intuition discriminate.
Defined.

(* ================================================================== *)
(** ** Several files at once: drop and picker against paste *)
(* ================================================================== *)

Lemma itemOfFile_qualifies (f : File.t) :
  qualifies (itemOfFile f) <-> isImageType (File.type f) = true.
Proof.
  unfold qualifies, itemOfFile, isImageType. simpl. tauto.
Qed.

(** X12. Of several files, drop and the file picker look at the first
    only: if it is not an image the invalid-input message is stored and
    the selection stays, whatever follows it.  A paste of the same files
    skips the files that are not images and selects the first image. *)
Theorem first_file_only_but_paste_searches
        (w : World) (skipped : list File.t) (g : File.t)
        (rest : list File.t) (tgt : option Element) :
  skipped <> [] ->
  Forall (fun f => isImageType (File.type f) = false) skipped ->
  isImageType (File.type g) = true ->
  isEditableTarget tgt = false ->
  let files := skipped ++ g :: rest in
  (error (app (handleDrop files w)) = Msg.invalid_input
   /\ imageFile (app (handleDrop files w)) = imageFile (app w))
  /\ (error (app (handleFileChange (Some files) w)) = Msg.invalid_input
      /\ imageFile (app (handleFileChange (Some files) w)) = imageFile (app w))
  /\ handlePaste (mkClipboardEvent tgt (Some (map itemOfFile files))) w
     = (processFile (Some g) w, true)
  /\ option_map file
       (imageFile (app (fst (handlePaste
          (mkClipboardEvent tgt (Some (map itemOfFile files))) w))))
     = Some g.
Proof.
  intros Hne Hs Hg Ht files.
  assert (Hp : handlePaste (mkClipboardEvent tgt (Some (map itemOfFile files))) w
               = (processFile (Some g) w, true)).
  { unfold handlePaste. simpl. rewrite Ht. subst files.
    rewrite map_app. simpl.
    apply (pasteLoop_first (map itemOfFile rest) w (it := itemOfFile g)).
    - apply Forall_map. eapply Forall_impl; [|exact Hs].
      intros f Hf Hq. apply itemOfFile_qualifies in Hq. congruence.
    - now apply itemOfFile_qualifies. }
  destruct skipped as [|f skipped]; [congruence|].
  inversion Hs as [|? ? Hf _]; subst.
  subst files.
  change (handleDrop ((f :: skipped) ++ g :: rest) w)
    with (processFile (Some f) (setIsDragging false w)).
  change (handleFileChange (Some ((f :: skipped) ++ g :: rest)) w)
    with (processFile (Some f) w).
  rewrite !(processFile_rejects (Some f) _ Hf).
  repeat split.
  - exact Hp.
  - rewrite Hp. cbn [fst]. now rewrite (processFile_accepts g w Hg).
Qed.

Lemma first_file_only_but_paste_searches_witness :
  error (app (handleDrop [Sample.txt; Sample.png] initialWorld))
  = Msg.invalid_input
  /\ handlePaste (mkClipboardEvent (Some Sample.body)
                    (Some (map itemOfFile [Sample.txt; Sample.png])))
                 initialWorld
     = (processFile (Some Sample.png) initialWorld, true).
Proof.
  destruct (@first_file_only_but_paste_searches initialWorld
              [Sample.txt] Sample.png [] (Some Sample.body))
    as ((Hd & _) & _ & Hp & _).
  - discriminate.
  - constructor; [reflexivity | constructor].
  - reflexivity.
  - reflexivity.
  - split; [exact Hd | exact Hp].
Defined.

(* ================================================================== *)
(** ** A pending call is not cancelled *)
(* ================================================================== *)

(** X13. Selecting another image, or clearing the selection, while a
    remote call is pending does not cancel the call: when the answer
    arrives its trimmed text is stored as the result, next to the new
    image or next to no image at all, and the loading flag is cleared. *)
Theorem pending_call_outlives_the_selection
        (w : World) (req : ConversionRequest) (g : File.t) (resp : jsstring) :
  pending w = [Calling req] ->
  isImageType (File.type g) = true ->
  forallb isWhiteSpace resp = false ->
  let answer := RemoteSettles 0 (Resolved (Some resp)) in
  (let w' := step answer (processFile (Some g) w) in
   imageFile (app w') = Some (mkImageFile g (nextUrl w))
   /\ latexCode (app w') = trim resp
   /\ isLoading (app w') = false)
  /\ (let w' := step answer (clearImage w) in
      imageFile (app w') = None
      /\ latexCode (app w') = trim resp
      /\ isLoading (app w') = false)
  /\ trim resp <> [].
Proof.
  intros Hp Hg Hr.
  assert (Hne : trim resp <> []).
  { intros E. apply trim_nil_iff in E. congruence. }
  assert (Ht : resumeGetLatex (Resolved (Some resp)) = Return (trim resp)).
  { unfold resumeGetLatex, tryBlock.
    destruct (truthy (trim resp)) eqn:T; [reflexivity|].
    now apply truthy_false in T. }
  destruct w as [[img lc ld er dr] nu lv pd rl cl uh]. simpl in Hp. subst pd.
  cbv zeta. unfold step, remoteSettled, processFile, clearImage.
  rewrite Hg. simpl. rewrite Ht.
  destruct img; simpl; repeat split; trivial.
Qed.

Lemma pending_call_outlives_the_selection_witness :
  let w := run Sample.upToRequest initialWorld in
  latexCode (app (step (RemoteSettles 0 (Resolved (Some (lit "x^2"))))
                       (clearImage w)))
  = lit "x^2".
Proof.
  cbv zeta.
  destruct (@pending_call_outlives_the_selection
              (run Sample.upToRequest initialWorld)
              (buildRequest (Some (lit "iVBORw0KGgo=")) (lit "image/png"))
              Sample.png (lit "x^2") eq_refl eq_refl eq_refl)
    as (_ & (_ & H & _) & _).
  exact H.
Defined.

(* ================================================================== *)
(** ** What a conversion leaves in the component *)
(* ================================================================== *)

Lemma resumeGetLatex_nonblank (resp : jsstring) :
  forallb isWhiteSpace resp = false ->
  resumeGetLatex (Resolved (Some resp)) = Return (trim resp)
  /\ trim resp <> [].
Proof.
  intros Hr.
  assert (Hne : trim resp <> []).
  { intros E. apply trim_nil_iff in E. congruence. }
  split; [|exact Hne].
  unfold resumeGetLatex, tryBlock.
  destruct (truthy (trim resp)) eqn:T; [reflexivity|].
  now apply truthy_false in T.
Qed.

Lemma resumeGetLatex_throw (o : RemoteOutcome) (e : Thrown) :
  resumeGetLatex o = Throw e ->
  e = ErrorObj Msg.invalid_api_key \/ e = ErrorObj Msg.generic_failure.
Proof.
  unfold resumeGetLatex. destruct (tryBlock o); [discriminate|].
  intros [= <-]. apply catchBlock_messages.
Qed.

(** C7 (the code departs from it). A conversion of a selected image, from
    the click to the last callback, as the cells of the component show
    it.  When the read fails, the read-failure message is stored and no
    result.  When the remote call answers with a text that is not all
    whitespace, the result is that text with the surrounding whitespace
    trimmed, it is not empty, and no error message is stored.  When
    [getLatexFromImage] throws (the call is rejected, the response has no
    text, or the text is blank), neither a result nor an error message is
    stored: the thrown failure goes to the sink of unhandled rejections
    and the loading flag stays set. *)
Theorem conversion_outcome_as_stored (w : World) (im : ImageFile) :
  imageFile (app w) = Some im ->
  pending w = [] ->
  (let w' := run [GenerateClick None; ReaderError 0] w in
   error (app w') = Msg.read_failure
   /\ latexCode (app w') = []
   /\ isLoading (app w') = false
   /\ pending w' = []
   /\ remoteLog w' = remoteLog w)
  /\ (forall (result resp : jsstring),
        forallb isWhiteSpace resp = false ->
        let w' := run [GenerateClick None; ReaderLoad 0 result;
                       RemoteSettles 0 (Resolved (Some resp))] w in
        latexCode (app w') = trim resp
        /\ whitespaceTrimmed resp (latexCode (app w'))
        /\ latexCode (app w') <> []
        /\ error (app w') = []
        /\ isLoading (app w') = false
        /\ pending w' = []
        /\ unhandled w' = unhandled w)
  /\ (forall (result : jsstring) (o : RemoteOutcome) (e : Thrown),
        resumeGetLatex o = Throw e ->
        let w' := run [GenerateClick None; ReaderLoad 0 result;
                       RemoteSettles 0 o] w in
        latexCode (app w') = []
        /\ error (app w') = []
        /\ isLoading (app w') = true
        /\ pending w' = []
        /\ unhandled w' = e :: unhandled w
        /\ (e = ErrorObj Msg.invalid_api_key
            \/ e = ErrorObj Msg.generic_failure)).
Proof.
  intros Him Hp.
  destruct w as [[img lc ld er dr] nu lv pd rl cl uh]. simpl in Him, Hp.
  subst img pd. split; [|split].
  - cbv zeta. unfold run, step, handleGenerateClick, readerFailed. simpl.
    repeat split.
  - intros result resp Hr. cbv zeta.
    destruct (resumeGetLatex_nonblank resp Hr) as [Ht Hne].
    unfold run, step, handleGenerateClick, readerLoaded, remoteSettled.
    cbn -[resumeGetLatex caught trim split]. rewrite Ht.
    cbn -[caught trim split].
    repeat split; trivial. apply trim_whitespaceTrimmed.
  - intros result o e Ho. cbv zeta.
    unfold run, step, handleGenerateClick, readerLoaded, remoteSettled.
    cbn -[resumeGetLatex caught trim split]. rewrite Ho.
    cbn -[caught trim split].
    repeat split. now apply (resumeGetLatex_throw o).
Qed.

Lemma conversion_outcome_as_stored_witness :
  let w := run [Drop [Sample.png]] initialWorld in
  let w' := run [GenerateClick None; ReaderLoad 0 Sample.dataUrl;
                 RemoteSettles 0 (Rejected (ErrorObj (lit "fetch failed")))]
                w in
  latexCode (app w') = []
  /\ error (app w') = []
  /\ isLoading (app w') = true
  /\ pending w' = []
  /\ unhandled w' = [ErrorObj Msg.generic_failure].
Proof.
  cbv zeta.
  destruct (@conversion_outcome_as_stored
              (run [Drop [Sample.png]] initialWorld)
              (mkImageFile Sample.png 0) eq_refl eq_refl)
    as (_ & _ & H).
  destruct (H Sample.dataUrl (Rejected (ErrorObj (lit "fetch failed")))
              (ErrorObj Msg.generic_failure) eq_refl)
    as (Hl & He & Hld & Hp & Hu & _).
  repeat split; assumption.
Defined.
